(** * Extended window status: the derived sensor of
      [custom_components/extended_window_status/sensor.py]

    The sensor watches two Home Assistant entities and derives a window
    status from their latest states.  This development embeds the class
    [ExtendedWindowStatus] (its constructor, the two lifecycle hooks, the
    change handler and the recomputation [_async_update_state]) as programs
    of a small state-and-exception monad over a model of the host, and
    proves the behaviour of the derivation. *)

From Stdlib Require Import ZArith String Ascii SpecFloat.
From stdpp Require Import base option list gmap strings.

Open Scope string_scope.

(** ** The host: [homeassistant.core] and [logging] *)

(** [homeassistant.core.State]: the sensor only reads [.state]. *)
Record State := mkState { state : string }.

(** [homeassistant.core.Event] of a state change; the handler receives it
    and never looks inside. *)
Record Event := mkEvent { data_entity_id : string }.

Inductive Level := DEBUG | WARNING | ERROR.

Record LogRecord := mkLog { levelname : Level; message : string }.

#[global] Instance Level_eq_dec : EqDecision Level.
Proof. solve_decision. Defined.

(** The part of [HomeAssistant] the sensor touches.  [listeners] are the
    state-change trackers whose callback is the sensor's bound method
    [_async_state_changed], each under the handle its remover closes over;
    [written] records every [async_write_ha_state] of the sensor, oldest
    first. *)
Record HomeAssistant := mkHass {
  states : gmap string State;
  listeners : list (nat * list string);
  next_handle : nat;
  translations : gmap string string;
  written : list (option string)
}.

(** ** The sensor object *)

Record ExtendedWindowStatus := mkSensor {
  _attr_unique_id : string;
  entity_id : string;
  _base_entity : string;
  _second_entity : string;
  _mode : string;
  _state : option string;
  _remove_listeners : list nat;
  _translations : gmap string string
}.

Record World := mkWorld {
  hass : HomeAssistant;
  self : ExtendedWindowStatus;
  log : list LogRecord
}.

(** ** Statements: state passing with [return] and exceptions *)

Inductive Exception :=
| ValueError (msg : string)
| TypeError (msg : string)
| RuntimeError (msg : string).

Definition str_exc (e : Exception) : string :=
  match e with ValueError m | TypeError m | RuntimeError m => m end.

Inductive Outcome (A : Type) : Type :=
| Normal (a : A)
| Return_
| Raise (e : Exception).
Arguments Normal {A} a.
Arguments Return_ {A}.
Arguments Raise {A} e.

Definition M (A : Type) : Type := World -> Outcome A * World.

#[global] Instance M_ret : MRet M := fun A a w => (Normal a, w).

#[global] Instance M_bind : MBind M := fun A B f m w =>
  match m w with
  | (Normal a, w') => f a w'
  | (Return_, w') => (Return_, w')
  | (Raise e, w') => (Raise e, w')
  end.

Definition pass : M unit := mret tt.
Definition return_ {A} : M A := fun w => (Return_, w).
Definition raise {A} (e : Exception) : M A := fun w => (Raise e, w).

(** [try: body except classes: handler]; an exception outside [classes]
    passes through, and so does a [return] of the body. *)
Definition try_except {A} (body : M A) (classes : Exception -> bool)
    (handler : Exception -> M A) : M A := fun w =>
  match body w with
  | (Raise e, w') => if classes e then handler e w' else (Raise e, w')
  | r => r
  end.

(** The body of a [def] returning nothing: a [return] ends the call. *)
Definition def_ (body : M unit) : M unit := fun w =>
  match body w with
  | (Return_, w') => (Normal tt, w')
  | r => r
  end.

(** [for x in xs: body x] *)
Fixpoint for_ {A} (xs : list A) (body : A -> M unit) : M unit :=
  match xs with
  | [] => pass
  | x :: xs' => body x ;; for_ xs' body
  end.

Definition is_ValueError_or_TypeError (e : Exception) : bool :=
  match e with ValueError _ | TypeError _ => true | _ => false end.

Definition is_Exception (e : Exception) : bool := true.

(** Reads and writes of the world. *)
Definition get_self : M ExtendedWindowStatus := fun w => (Normal (self w), w).
Definition get_hass : M HomeAssistant := fun w => (Normal (hass w), w).
Definition put_self (s : ExtendedWindowStatus) : M unit :=
  fun w => (Normal tt, mkWorld (hass w) s (log w)).
Definition put_hass (h : HomeAssistant) : M unit :=
  fun w => (Normal tt, mkWorld h (self w) (log w)).

Definition _LOGGER (lvl : Level) (msg : string) : M unit :=
  fun w => (Normal tt, mkWorld (hass w) (self w) (log w ++ [mkLog lvl msg])).

(** [self._state = v] *)
Definition with_state (s : ExtendedWindowStatus) (v : option string)
    : ExtendedWindowStatus :=
  mkSensor (_attr_unique_id s) (entity_id s) (_base_entity s)
    (_second_entity s) (_mode s) v (_remove_listeners s) (_translations s).

Definition set__state (v : option string) : M unit :=
  s ← get_self; put_self (with_state s v).

Definition set__remove_listeners (l : list nat) : M unit :=
  s ← get_self;
  put_self (mkSensor (_attr_unique_id s) (entity_id s) (_base_entity s)
              (_second_entity s) (_mode s) (_state s) l (_translations s)).

Definition set__translations (t : gmap string string) : M unit :=
  s ← get_self;
  put_self (mkSensor (_attr_unique_id s) (entity_id s) (_base_entity s)
              (_second_entity s) (_mode s) (_state s) (_remove_listeners s) t).

(** [hass.states.get(entity_id)] *)
Definition states_get (id : string) : M (option State) :=
  h ← get_hass; mret (states h !! id).

(** [dict.get(key, default)] *)
Definition dict_get (d : gmap string string) (key dflt : string) : string :=
  default dflt (d !! key).

(** [str(x)] inside an f-string, for the two kinds of value the log lines
    interpolate. *)
Definition str_bool (b : bool) : string := if b then "True" else "False".
Definition str_state (v : option string) : string := default "None" v.

(** Comparison of a Python float with the integer literal [0]. *)
Definition float_zero : spec_float := S754_zero false.
Definition float_eq0 (x : spec_float) : bool := SFeqb x float_zero.
Definition float_gt0 (x : spec_float) : bool := SFltb float_zero x.
Definition float_lt0 (x : spec_float) : bool := SFltb x float_zero.

(** [async_get_translations(hass, hass.config.language, "entity",
    integrations={DOMAIN})]: the host's table for the configured language. *)
Definition async_get_translations : M (gmap string string) :=
  h ← get_hass; mret (translations h).

(** [async_track_state_change_event(hass, entity_ids, callback)] registers
    a tracker and returns its remover; the remover is modelled by the
    handle it deletes. *)
Definition async_track_state_change_event (entity_ids : list string) : M nat :=
  h ← get_hass;
  let handle := next_handle h in
  put_hass (mkHass (states h) (listeners h ++ [(handle, entity_ids)])
              (S handle) (translations h) (written h)) ;;
  mret handle.

(** Calling a remover. *)
Definition remove_listener (handle : nat) : M unit :=
  h ← get_hass;
  put_hass (mkHass (states h)
              (filter (fun l => l.1 ≠ handle) (listeners h))
              (next_handle h) (translations h) (written h)).

(** [Entity.async_write_ha_state]: hands the current value of the [state]
    property to the host. *)
Definition async_write_ha_state : M unit :=
  s ← get_self;
  h ← get_hass;
  put_hass (mkHass (states h) (listeners h) (next_handle h) (translations h)
              (written h ++ [_state s])).

(** [Entity.async_added_to_hass] and [Entity.async_will_remove_from_hass]
    of the base class do nothing. *)
Definition super_async_added_to_hass : M unit := pass.
Definition super_async_will_remove_from_hass : M unit := pass.

(** ** Python's [float] on ASCII text

    An executable model of the builtin on strings of ASCII characters:
    surrounding white space is stripped, single underscores between digits
    are dropped, and what remains is a signed [inf], [infinity] or [nan]
    in any case, or a decimal literal with an optional exponent.  The value
    is the binary64 number nearest to the literal, ties to even. *)

Definition is_space (c : ascii) : bool :=
  let n := nat_of_ascii c in Nat.eqb n 32 || (Nat.leb 9 n && Nat.leb n 13).
Definition is_digit (c : ascii) : bool :=
  let n := nat_of_ascii c in Nat.leb 48 n && Nat.leb n 57.
Definition digit_value (c : ascii) : Z := (Z.of_nat (nat_of_ascii c) - 48)%Z.
Definition lower (c : ascii) : ascii :=
  let n := nat_of_ascii c in
  if Nat.leb 65 n && Nat.leb n 90 then ascii_of_nat (n + 32) else c.

Fixpoint lstrip (l : list ascii) : list ascii :=
  match l with
  | c :: l' => if is_space c then lstrip l' else l
  | [] => []
  end.

Definition strip (l : list ascii) : list ascii :=
  reverse (lstrip (reverse (lstrip l))).

(** An underscore is accepted only right after a digit and right before
    one; [prev] is the character just read. *)
Fixpoint drop_underscores (prev : option ascii) (l : list ascii)
    : option (list ascii) :=
  match l with
  | [] => if bool_decide (prev = Some "_"%char) then None else Some []
  | c :: l' =>
    if bool_decide (c = "_"%char) then
      if from_option is_digit false prev then drop_underscores (Some c) l'
      else None
    else if bool_decide (prev = Some "_"%char) && negb (is_digit c) then None
    else cons c <$> drop_underscores (Some c) l'
  end.

Fixpoint span_digits (l : list ascii) : list ascii * list ascii :=
  match l with
  | c :: l' =>
    if is_digit c then let '(ds, r) := span_digits l' in (c :: ds, r)
    else ([], l)
  | [] => ([], [])
  end.

Definition Z_of_digits (ds : list ascii) : Z :=
  fold_left (fun acc c => 10 * acc + digit_value c)%Z ds 0%Z.

Definition split_sign (l : list ascii) : bool * list ascii :=
  match l with
  | "-"%char :: l' => (true, l')
  | "+"%char :: l' => (false, l')
  | _ => (false, l)
  end.

(** The binary64 number nearest to [(-1)^neg * m * 10^e10]. *)
Definition binary64_of_decimal (neg : bool) (m e10 : Z) : spec_float :=
  match m with
  | Zpos p =>
    if (0 <=? e10)%Z then
      binary_round 53 1024 neg (p * Z.to_pos (10 ^ e10)) 0
    else
      SFdiv 53 1024 (S754_finite neg p 0)
                    (S754_finite false (Z.to_pos (10 ^ (- e10))) 0)
  | _ => S754_zero neg
  end.

Definition parse_exponent (l : list ascii) : option Z :=
  match l with
  | [] => Some 0%Z
  | c :: l' =>
    if bool_decide (lower c = "e"%char) then
      let '(neg, l'') := split_sign l' in
      match span_digits l'' with
      | ((_ :: _) as ds, []) =>
        Some (if neg then - Z_of_digits ds else Z_of_digits ds)%Z
      | _ => None
      end
    else None
  end.

Definition parse_number (neg : bool) (l : list ascii) : option spec_float :=
  let '(ip, r) := span_digits l in
  let '(fp, r') := match r with
                   | "."%char :: r1 => span_digits r1
                   | _ => ([], r)
                   end in
  match (ip ++ fp)%list with
  | [] => None
  | ds =>
    e ← parse_exponent r';
    Some (binary64_of_decimal neg (Z_of_digits ds) (e - Z.of_nat (length fp)))
  end.

Definition py_float (s : string) : option spec_float :=
  l ← drop_underscores None (strip (list_ascii_of_string s));
  let '(neg, l') := split_sign l in
  let w := string_of_list_ascii (map lower l') in
  if bool_decide (w = "inf") || bool_decide (w = "infinity") then
    Some (S754_infinity neg)
  else if bool_decide (w = "nan") then Some S754_nan
  else parse_number neg l'.

(** ** What the module imports

    [const.py] is not among the sources at hand, so its three constants are
    taken as given; so is Python's builtin [float] on strings, [None]
    standing for the [ValueError] it raises on text that is no number.
    Every result below holds for any choice of them, in particular for
    [py_float]. *)
Class Imports := {
  DOMAIN : string;
  MODE_ROTARY_TILT : string;
  MODE_BINARY_TILT : string;
  float : string -> option spec_float
}.

Section Sensor.

Context {imports : Imports}.

Definition float_ (s : string) : M spec_float :=
  match float s with
  | Some x => mret x
  | None => raise (ValueError ("could not convert string to float: '" +:+ s +:+ "'"))
  end.

Definition translation_key : string :=
  "component." +:+ DOMAIN +:+ ".entity.sensor." +:+ DOMAIN +:+ ".state.".

(** [ExtendedWindowStatus._async_update_state]: the [try] block, the
    [except Exception as e] clause, and the method made of the two. *)
Definition _async_update_state_try (event : option Event) : M unit :=
  s ← get_self;
  base_state ← states_get (_base_entity s);
  second_state ← states_get (_second_entity s);
  match base_state, second_state with
  | Some base_state, Some second_state =>
    (if bool_decide (_mode s = MODE_ROTARY_TILT) then
       let base_on := bool_decide (state base_state = "on") in
       rotation ← try_except (float_ (state second_state))
         is_ValueError_or_TypeError
         (fun _ =>
            _LOGGER ERROR ("Invalid rotation value for " +:+ _second_entity s) ;;
            set__state None ;;
            return_);
       if negb base_on then
         set__state (Some (dict_get (_translations s)
                             (translation_key +:+ "closed") "Closed"))
       else if float_eq0 rotation then
         set__state (Some (dict_get (_translations s)
                             (translation_key +:+ "open") "Open"))
       else if float_gt0 rotation then
         set__state (Some (dict_get (_translations s)
                             (translation_key +:+ "tilted") "Tilted"))
       else
         set__state None
     else
       let first_on := bool_decide (state base_state = "on") in
       let second_on := bool_decide (state second_state = "on") in
       if negb first_on && negb second_on then
         set__state (Some (dict_get (_translations s)
                             (translation_key +:+ "closed") "Closed"))
       else if first_on && second_on then
         set__state (Some (dict_get (_translations s)
                             (translation_key +:+ "open") "Open"))
       else if negb first_on && second_on then
         set__state (Some (dict_get (_translations s)
                             (translation_key +:+ "tilted") "Tilted"))
       else
         set__state None ;;
         _LOGGER WARNING ("Invalid state combination for " +:+ entity_id s
                          +:+ ": first_on=" +:+ str_bool first_on
                          +:+ ", second_on=" +:+ str_bool second_on)) ;;
    s' ← get_self;
    _LOGGER DEBUG ("Updated state for " +:+ entity_id s' +:+ ": "
                   +:+ str_state (_state s'))
  | _, _ =>
    _LOGGER ERROR ("Missing state for " +:+ _base_entity s +:+ " or "
                   +:+ _second_entity s) ;;
    set__state None ;;
    return_
  end.

Definition _async_update_state_except (e : Exception) : M unit :=
  s ← get_self;
  _LOGGER ERROR ("Error updating " +:+ entity_id s +:+ ": " +:+ str_exc e) ;;
  set__state None.

Definition _async_update_state (event : option Event) : M unit :=
  def_ (try_except (_async_update_state_try event) is_Exception
          _async_update_state_except).

(** [ExtendedWindowStatus.__init__]; [device_identifiers] is the text the
    set of identifiers takes in the log line. *)
Definition __init__ (device_identifiers base_entity second_entity
                     entity_id' mode : string) : M unit :=
  let unique_id := DOMAIN +:+ "_" +:+ base_entity +:+ "_" +:+ second_entity
                   +:+ "_" +:+ mode in
  put_self (mkSensor unique_id entity_id' base_entity second_entity mode
              None [] ∅) ;;
  _LOGGER DEBUG ("Initialized sensor: " +:+ unique_id +:+ " with entity_id: "
                 +:+ entity_id' +:+ " for device with identifiers "
                 +:+ device_identifiers +:+ ", mode: " +:+ mode).

(** [ExtendedWindowStatus._async_state_changed] *)
Definition _async_state_changed (event : Event) : M unit :=
  def_ (_async_update_state (Some event) ;;
        async_write_ha_state ;;
        s ← get_self;
        _LOGGER DEBUG ("State changed for " +:+ entity_id s
                       +:+ ", new state: " +:+ str_state (_state s))).

(** [ExtendedWindowStatus.async_added_to_hass] *)
Definition async_added_to_hass : M unit :=
  def_ (tr ← async_get_translations;
        set__translations tr ;;
        s ← get_self;
        remover ← async_track_state_change_event
                    [_base_entity s; _second_entity s];
        set__remove_listeners (_remove_listeners s ++ [remover]) ;;
        super_async_added_to_hass ;;
        _async_update_state None ;;
        _LOGGER DEBUG ("Set up state change listeners for " +:+ entity_id s)).

(** [ExtendedWindowStatus.async_will_remove_from_hass] *)
Definition async_will_remove_from_hass : M unit :=
  def_ (s ← get_self;
        for_ (_remove_listeners s) remove_listener ;;
        set__remove_listeners [] ;;
        super_async_will_remove_from_hass ;;
        _LOGGER DEBUG ("Removed state change listeners for " +:+ entity_id s)).

(** The [state] property. *)
Definition state_property (s : ExtendedWindowStatus) : option string :=
  _state s.

(** [recompute event w] is the world [_async_update_state] leaves behind. *)
Definition recompute (event : option Event) (w : World) : World :=
  (_async_update_state event w).2.

(** ** The host's side of the subscription

    A state-change event reaches the callback of every tracker registered
    for the entity it names, in registration order. *)
Definition tracks (id : string) (l : nat * list string) : bool :=
  bool_decide (id ∈ l.2).

Definition async_fire (event : Event) : M unit :=
  h ← get_hass;
  for_ (List.filter (tracks (data_entity_id event)) (listeners h))
       (fun _ => _async_state_changed event).

(** [hass.states.async_set] and [hass.states.async_remove] by some other
    party: the state machine is updated and the change is announced. *)
Definition async_set (id value : string) : M unit :=
  h ← get_hass;
  put_hass (mkHass (<[id := mkState value]> (states h)) (listeners h)
              (next_handle h) (translations h) (written h)) ;;
  async_fire (mkEvent id).

Definition async_remove (id : string) : M unit :=
  h ← get_hass;
  put_hass (mkHass (delete id (states h)) (listeners h)
              (next_handle h) (translations h) (written h)) ;;
  async_fire (mkEvent id).

End Sensor.

(** ** The vocabulary of the specification

    The four symbolic values of the derived state, the text each takes
    under a table of translations ([None] for [Unknown]), and the two
    decision tables written as one function of the mode and the two
    snapshots. *)
Inductive DerivedState := Closed | Open | Tilted | Unknown.

Section Derivation.

Context {imports : Imports}.

Definition shown (tr : gmap string string) (d : DerivedState) : option string :=
  match d with
  | Closed => Some (dict_get tr (translation_key +:+ "closed") "Closed")
  | Open => Some (dict_get tr (translation_key +:+ "open") "Open")
  | Tilted => Some (dict_get tr (translation_key +:+ "tilted") "Tilted")
  | Unknown => None
  end.

Definition rotary_table (base_on : bool) (rotation : spec_float) : DerivedState :=
  if negb base_on then Closed
  else if float_eq0 rotation then Open
  else if float_gt0 rotation then Tilted
  else Unknown.

Definition binary_table (a b : bool) : DerivedState :=
  match a, b with
  | false, false => Closed
  | true, true => Open
  | false, true => Tilted
  | true, false => Unknown
  end.

Definition derive (mode : string) (A B : option State) : DerivedState :=
  match A, B with
  | Some a, Some b =>
    if bool_decide (mode = MODE_ROTARY_TILT) then
      match float (state b) with
      | Some rotation => rotary_table (bool_decide (state a = "on")) rotation
      | None => Unknown
      end
    else binary_table (bool_decide (state a = "on")) (bool_decide (state b = "on"))
  | _, _ => Unknown
  end.

(** The snapshots a recomputation reads. *)
Definition inputA (w : World) : option State :=
  states (hass w) !! _base_entity (self w).
Definition inputB (w : World) : option State :=
  states (hass w) !! _second_entity (self w).

(** A record of level [lvl] was appended to the log between [w] and [w']. *)
Definition diagnosed (lvl : Level) (w w' : World) : Prop :=
  ∃ msg more, log w' = (log w ++ mkLog lvl msg :: more)%list.

(** Every tracker the host holds for the sensor is one whose remover the
    sensor kept. *)
Definition tracked (w : World) : Prop :=
  ∀ l, l ∈ listeners (hass w) → l.1 ∈ _remove_listeners (self w).

(** ** Histories

    What can happen to a sensor once constructed: the host adds it, removes
    it, or some other party changes, deletes or re-announces an entity. *)
Inductive Action :=
| Start
| Stop
| Change (id value : string)
| Vanish (id : string)
| Notify (event : Event).

Definition perform (a : Action) : M unit :=
  match a with
  | Start => async_added_to_hass
  | Stop => async_will_remove_from_hass
  | Change id value => async_set id value
  | Vanish id => async_remove id
  | Notify event => async_fire event
  end.

Definition run (history : list Action) : M unit := for_ history perform.

Definition external (a : Action) : bool :=
  match a with Start | Stop => false | _ => true end.

End Derivation.

(** ** Concrete data for examples *)

Definition example_imports : Imports := {|
  DOMAIN := "extended_window_status";
  MODE_ROTARY_TILT := "rotary_tilt";
  MODE_BINARY_TILT := "binary_tilt";
  float := py_float
|}.

Definition example_sensor (mode : string) (prior : option string)
    : ExtendedWindowStatus :=
  mkSensor ("extended_window_status_binary_sensor.window_sensor.handle_" +:+ mode)
    "sensor.kitchen_extended_window" "binary_sensor.window" "sensor.handle"
    mode prior [] ∅.

Definition example_hass (entities : list (string * string)) : HomeAssistant :=
  mkHass (list_to_map (prod_map id mkState <$> entities)) [] 0 ∅ [].

Definition window_and_handle (a b : string) : list (string * string) :=
  [("binary_sensor.window", a); ("sensor.handle", b)].

Definition example_world (mode : string) (prior : option string)
    (entities : list (string * string)) : World :=
  mkWorld (example_hass entities) (example_sensor mode prior) [].

(** The state derived from a window contact reading [a] and a handle
    reading [b], by a sensor of the given mode that held [prior]. *)
Definition derived (mode : string) (prior : option string) (a b : string)
    : option string :=
  state_property
    (self (recompute (imports := example_imports) None
             (example_world mode prior (window_and_handle a b)))).

(** The sensor of the specification's scenario: constructed on a host where
    the window reads [a] and the handle [b], then taken through a history. *)
Definition scenario (mode a b : string) (history : list Action) : World :=
  (run (imports := example_imports) history
     (__init__ (imports := example_imports) "{('zha', '00:0d:6f:00:0a:90:69')}"
        "binary_sensor.window" "sensor.handle"
        "sensor.kitchen_extended_window" mode
        (example_world "" None (window_and_handle a b))).2).2.

(** * The rest of the integration

    The platform setup of [sensor.py] and the two flows of
    [config_flow.py].  They run before any sensor exists, over state of
    their own, and can fail with errors the sensor class never meets. *)

(** ** Python errors and programs over a state [S] *)

Inductive PyError :=
| KeyError (key : string)
| IndexError
| NameError (name : string)
| AttributeError (type_name attr : string)
| Uncaught (e : Exception).

(** [str(e)] *)
Definition str_error (e : PyError) : string :=
  match e with
  | KeyError key => "'" +:+ key +:+ "'"
  | IndexError => "list index out of range"
  | NameError name => "name '" +:+ name +:+ "' is not defined"
  | AttributeError type_name attr =>
    "'" +:+ type_name +:+ "' object has no attribute '" +:+ attr +:+ "'"
  | Uncaught e => str_exc e
  end.

Inductive Result (A : Type) : Type :=
| Ok (a : A)
| Err (e : PyError).
Arguments Ok {A} a.
Arguments Err {A} e.

Definition Prog (S A : Type) : Type := S -> Result A * S.

#[global] Instance Prog_ret S : MRet (Prog S) := fun A a s => (Ok a, s).

#[global] Instance Prog_bind S : MBind (Prog S) := fun A B f m s =>
  match m s with
  | (Ok a, s') => f a s'
  | (Err e, s') => (Err e, s')
  end.

Definition throw {S A} (e : PyError) : Prog S A := fun s => (Err e, s).

(** [try: body except Exception as e: handler e] *)
Definition try_except_Exception {S A} (body : Prog S A)
    (handler : PyError -> Prog S A) : Prog S A := fun s =>
  match body s with
  | (Err e, s') => handler e s'
  | r => r
  end.

(** [d[key]] and [l[i]] *)
Definition getitem {S} (d : gmap string string) (key : string) : Prog S string :=
  match d !! key with
  | Some v => mret v
  | None => throw (KeyError key)
  end.

Definition getindex {S} (l : list string) (i : nat) : Prog S string :=
  match l !! i with
  | Some v => mret v
  | None => throw IndexError
  end.

(** ** Strings, for ASCII text *)

Fixpoint str_map (f : ascii -> ascii) (s : string) : string :=
  match s with
  | EmptyString => EmptyString
  | String c s' => String (f c) (str_map f s')
  end.

Fixpoint str_filter (keep : ascii -> bool) (s : string) : string :=
  match s with
  | EmptyString => EmptyString
  | String c s' =>
    if keep c then String c (str_filter keep s') else str_filter keep s'
  end.

(** [s.lower()] *)
Definition str_lower (s : string) : string := str_map lower s.

(** The classes [a-zA-Z0-9] and [\s] of [re]. *)
Definition is_alnum (c : ascii) : bool :=
  let n := nat_of_ascii c in
  (Nat.leb 48 n && Nat.leb n 57) || (Nat.leb 65 n && Nat.leb n 90)
  || (Nat.leb 97 n && Nat.leb n 122).

Definition is_re_space (c : ascii) : bool :=
  let n := nat_of_ascii c in
  Nat.eqb n 32 || (Nat.leb 9 n && Nat.leb n 13) || (Nat.leb 28 n && Nat.leb n 31).

(** [re.sub(r"[^a-zA-Z0-9\s]", "", s)] *)
Definition re_sub_other (s : string) : string :=
  str_filter (fun c => is_alnum c || is_re_space c) s.

(** [s.replace(" ", "_")] *)
Definition replace_space (s : string) : string :=
  str_map (fun c => if bool_decide (c = " "%char) then "_"%char else c) s.

(** [s.split(sep)] for a separator of one character *)
Fixpoint split (sep : ascii) (s : string) : list string :=
  match s with
  | EmptyString => [EmptyString]
  | String c s' =>
    if bool_decide (c = sep) then EmptyString :: split sep s'
    else match split sep s' with
         | h :: t => String c h :: t
         | [] => [String c EmptyString]
         end
  end.

Definition is_ascii_text (s : string) : Prop :=
  Forall (fun c => nat_of_ascii c < 128) (list_ascii_of_string s).

(** ** Registries and config entries of the host *)

(** [DeviceEntry]: [identifiers] is the text of the set, as in
    [__init__]. *)
Record DeviceEntry := mkDevice {
  identifiers : string;
  name_by_user : option string;
  name : option string
}.

Record ConfigEntry := mkEntry {
  entry_id : string;
  data : gmap string string
}.

(** What the platform setup touches: the device registry, the entity
    registry restricted to domain "sensor" and this platform (unique id to
    entity id), the entities handed to [async_add_entities], the log. *)
Record Platform := mkPlatform {
  device_registry : gmap string DeviceEntry;
  entity_registry : gmap string string;
  added_entities : list ExtendedWindowStatus;
  platform_log : list LogRecord
}.

(** What the host contributes and this development takes as given:
    [CONF_DEVICE_ID] of [homeassistant.const]; [str] of the dict or [None]
    a flow step receives; the entity id the registry makes up for a new
    entry from the suggested object id; and whether the registry accepts a
    new entity id in [async_update_entity] (it raises [ValueError] when it
    does not). *)
Class Host := {
  CONF_DEVICE_ID : string;
  str_user_input : option (gmap string string) -> string;
  generate_entity_id : gmap string string -> string -> string;
  entity_id_assignable : gmap string string -> string -> bool
}.

Definition platform_LOGGER (lvl : Level) (msg : string) : Prog Platform unit :=
  fun p => (Ok tt, mkPlatform (device_registry p) (entity_registry p)
                     (added_entities p) (platform_log p ++ [mkLog lvl msg])).

(** [device_registry.async_get(device_id)] *)
Definition device_registry_async_get (device_id : string)
    : Prog Platform (option DeviceEntry) :=
  fun p => (Ok (device_registry p !! device_id), p).

(** [async_add_entities(entities)] *)
Definition async_add_entities (entities : list ExtendedWindowStatus)
    : Prog Platform unit :=
  fun p => (Ok tt, mkPlatform (device_registry p) (entity_registry p)
                     (added_entities p ++ entities) (platform_log p)).

(** A Python [x or y] on optional strings: [None] and the empty string are
    false. *)
Definition truthy (x : option string) : bool :=
  match x with
  | Some (String _ _) => true
  | _ => false
  end.

Definition or_ (x y : option string) : option string :=
  if truthy x then x else y.

Section Setup.

Context {imports : Imports} {host : Host}.

(** [entity_registry.async_get_or_create(domain="sensor", platform=DOMAIN,
    unique_id=..., suggested_object_id=..., device_id=...)], giving the
    entity id of the entry. *)
Definition entity_registry_async_get_or_create
    (unique_id suggested_object_id device_id : string) : Prog Platform string :=
  fun p =>
    match entity_registry p !! unique_id with
    | Some registered => (Ok registered, p)
    | None =>
      let generated := generate_entity_id (entity_registry p) suggested_object_id in
      (Ok generated,
       mkPlatform (device_registry p)
         (<[unique_id := generated]> (entity_registry p))
         (added_entities p) (platform_log p))
    end.

(** [entity_registry.async_update_entity(entity_id=old, new_entity_id=new)] *)
Definition entity_registry_async_update_entity (old new : string)
    : Prog Platform unit :=
  fun p =>
    if entity_id_assignable (entity_registry p) new then
      (Ok tt,
       mkPlatform (device_registry p)
         ((fun e => if bool_decide (e = old) then new else e)
            <$> entity_registry p)
         (added_entities p) (platform_log p))
    else
      (Err (Uncaught (ValueError "Entity with this ID is already registered")), p).

(** [ExtendedWindowStatus(hass, description, device_identifiers, base_entity,
    second_entity, entity_id, mode)]: [__init__] run on a new object. *)
Definition new_ExtendedWindowStatus (device_identifiers base_entity
    second_entity entity_id' mode : string)
    : Prog Platform ExtendedWindowStatus :=
  fun p =>
    let w := (__init__ device_identifiers base_entity second_entity entity_id'
                mode
                (mkWorld (mkHass ∅ [] 0 ∅ [])
                   (mkSensor "" "" "" "" "" None [] ∅) (platform_log p))).2 in
    (Ok (self w),
     mkPlatform (device_registry p) (entity_registry p) (added_entities p)
       (log w)).

(** The two strings [async_setup_entry] builds from the device name. *)
Definition safe_device_name (device_name : string) : string :=
  replace_space (re_sub_other (str_lower device_name)).

Definition sensor_entity_id (device_name : string) : string :=
  "sensor." +:+ safe_device_name device_name +:+ "_extended_window".

(** [async_setup_entry] of [sensor.py] *)
Definition async_setup_entry (entry : ConfigEntry) : Prog Platform unit :=
  platform_LOGGER DEBUG ("Setting up extended window sensor for config entry: "
                         +:+ entry_id entry) ;;
  device_id ← getitem (data entry) CONF_DEVICE_ID;
  base_entity ← getitem (data entry) "base_entity";
  second_entity ← getitem (data entry) "second_entity";
  device_name ← getitem (data entry) "device_name";
  let mode := dict_get (data entry) "mode" MODE_ROTARY_TILT in
  device_entry ← device_registry_async_get device_id;
  match device_entry with
  | None =>
    platform_LOGGER ERROR ("Device with ID " +:+ device_id
                           +:+ " not found in device registry")
  | Some device_entry =>
    let device_identifiers := identifiers device_entry in
    let entity_id' := sensor_entity_id device_name in
    entity ← new_ExtendedWindowStatus device_identifiers base_entity
               second_entity entity_id' mode;
    suggested_object_id ← getindex (split "." entity_id') 1;
    registry_entry ← entity_registry_async_get_or_create
                        (DOMAIN +:+ "_" +:+ base_entity +:+ "_"
                         +:+ second_entity +:+ "_" +:+ mode)
                        suggested_object_id device_id;
    (if bool_decide (registry_entry ≠ entity_id') then
       platform_LOGGER DEBUG ("Updating entity_id from " +:+ registry_entry
                              +:+ " to " +:+ entity_id') ;;
       entity_registry_async_update_entity registry_entry entity_id'
     else mret tt) ;;
    async_add_entities [entity] ;;
    platform_LOGGER DEBUG ("Added extended window sensor for " +:+ device_name
                           +:+ " with ID " +:+ entity_id entity
                           +:+ " to device with identifiers "
                           +:+ device_identifiers)
  end.

End Setup.

(** ** The configuration flows of [config_flow.py] *)

(** A [selector(...)] of a form field. *)
Inductive Selector :=
| device_selector
| entity_selector (domain : list string)
| select_selector (options : list (string * string)) (translation_key : string).

(** [vol.Required(key, default=...)]: the key, the default if one is given
    (which may be [None]), and the selector. *)
Record Marker := Required {
  marker_key : string;
  marker_default : option (option string);
  marker_selector : Selector
}.

(** What a step returns: [async_show_form] or [async_create_entry]. *)
Inductive FlowResult :=
| show_form (step_id : string) (data_schema : list Marker)
    (errors : gmap string string)
    (description_placeholders : option (gmap string string))
| create_entry (title : string) (entry_data : gmap string string).

(** A flow handler: the device registry behind [self.hass], the attribute
    [_temp_data] ([None] while it has not been assigned) and the log. *)
Record FlowHandler := mkFlow {
  flow_device_registry : gmap string DeviceEntry;
  _temp_data : option (gmap string string);
  flow_log : list LogRecord
}.

Definition flow_LOGGER (lvl : Level) (msg : string) : Prog FlowHandler unit :=
  fun f => (Ok tt, mkFlow (flow_device_registry f) (_temp_data f)
                     (flow_log f ++ [mkLog lvl msg])).

(** [async_get_device_registry(self.hass).async_get(device_id)] *)
Definition flow_device_registry_async_get (device_id : string)
    : Prog FlowHandler (option DeviceEntry) :=
  fun f => (Ok (flow_device_registry f !! device_id), f).

(** Reading [self._temp_data], assigning it, and assigning one item. *)
Definition get__temp_data (type_name : string)
    : Prog FlowHandler (gmap string string) :=
  fun f =>
    match _temp_data f with
    | Some d => (Ok d, f)
    | None => (Err (AttributeError type_name "_temp_data"), f)
    end.

Definition set__temp_data (d : gmap string string) : Prog FlowHandler unit :=
  fun f => (Ok tt, mkFlow (flow_device_registry f) (Some d) (flow_log f)).

Definition setitem__temp_data (type_name key value : string)
    : Prog FlowHandler unit :=
  d ← get__temp_data type_name;
  set__temp_data (<[key := value]> d).

(** [device_entry.name_by_user or device_entry.name or "Unnamed Device"] *)
Definition device_name_of (device_entry : DeviceEntry) : string :=
  default "Unnamed Device"
    (or_ (or_ (name_by_user device_entry) (name device_entry))
         (Some "Unnamed Device")).

Module EntityCombinerConfigFlow.
Section Flow.

Context {imports : Imports} {host : Host}.

Definition _get_user_schema : list Marker :=
  [Required CONF_DEVICE_ID None device_selector;
   Required "base_entity" None
     (entity_selector ["binary_sensor"; "input_boolean"])].

Definition async_step_second_entity (user_input : option (gmap string string))
    : Prog FlowHandler FlowResult :=
  flow_LOGGER DEBUG ("Config flow step: second_entity, input: "
                     +:+ str_user_input user_input) ;;
  let errors : gmap string string := ∅ in
  match user_input with
  | Some user_input =>
    second_entity ← getitem user_input "second_entity";
    setitem__temp_data "EntityCombinerConfigFlow" "second_entity" second_entity ;;
    temp_data ← get__temp_data "EntityCombinerConfigFlow";
    device_name ← getitem temp_data "device_name";
    flow_LOGGER DEBUG ("Creating config entry for device " +:+ device_name) ;;
    temp_data ← get__temp_data "EntityCombinerConfigFlow";
    title ← getitem temp_data "device_name";
    temp_data ← get__temp_data "EntityCombinerConfigFlow";
    mret (create_entry title temp_data)
  | None =>
    temp_data ← get__temp_data "EntityCombinerConfigFlow";
    mode ← getitem temp_data "mode";
    let '(schema, description) :=
      if bool_decide (mode = MODE_ROTARY_TILT) then
        ([Required "second_entity" None
            (entity_selector ["number"; "input_number"])],
         "Select the number or number helper for rotation.")
      else
        ([Required "second_entity" None
            (entity_selector ["binary_sensor"; "input_boolean"])],
         "Select the second binary sensor or boolean helper for the window sensor.")
    in
    mret (show_form "second_entity" schema errors
            (Some {["description" := description]}))
  end.

Definition async_step_mode (user_input : option (gmap string string))
    : Prog FlowHandler FlowResult :=
  flow_LOGGER DEBUG ("Config flow step: mode, input: "
                     +:+ str_user_input user_input) ;;
  let errors : gmap string string := ∅ in
  match user_input with
  | Some user_input =>
    mode ← getitem user_input "mode";
    setitem__temp_data "EntityCombinerConfigFlow" "mode" mode ;;
    flow_LOGGER DEBUG ("Mode selected: " +:+ mode) ;;
    async_step_second_entity None
  | None =>
    mret (show_form "mode"
            [Required "mode" None
               (select_selector
                  [("Rotary value", MODE_ROTARY_TILT);
                   ("Another window sensor", MODE_BINARY_TILT)]
                  "mode")]
            errors
            (Some {["description" :=
                    "Select how the tilted status should be calculated."]}))
  end.

Definition async_step_user (user_input : option (gmap string string))
    : Prog FlowHandler FlowResult :=
  flow_LOGGER DEBUG ("Config flow step: user, input: "
                     +:+ str_user_input user_input) ;;
  let errors : gmap string string := ∅ in
  match user_input with
  | Some user_input =>
    try_except_Exception
      (device_id ← getitem user_input CONF_DEVICE_ID;
       device_entry ← flow_device_registry_async_get device_id;
       match device_entry with
       | None =>
         mret (show_form "user" _get_user_schema
                 (<[CONF_DEVICE_ID := "device_invalid"]> errors) None)
       | Some device_entry =>
         let device_name := device_name_of device_entry in
         device_id ← getitem user_input CONF_DEVICE_ID;
         base_entity ← getitem user_input "base_entity";
         set__temp_data
           (<["device_name" := device_name]>
              (<["base_entity" := base_entity]>
                 (<[CONF_DEVICE_ID := device_id]> ∅))) ;;
         flow_LOGGER DEBUG ("User step completed, proceeding to mode selection for device "
                            +:+ device_name) ;;
         async_step_mode None
       end)
      (fun e =>
         flow_LOGGER ERROR ("Error in config flow user step: " +:+ str_error e) ;;
         mret (show_form "user" _get_user_schema
                 (<["base" := "unknown"]> errors) None))
  | None =>
    mret (show_form "user" _get_user_schema errors
            (Some {["description" :=
                    "Select the device and binary sensor or boolean helper for the extended window sensor."]}))
  end.

End Flow.
End EntityCombinerConfigFlow.

Module EntityCombinerOptionsFlow.
Section Flow.

Context {imports : Imports} {host : Host}.

(** [self.config_entry.data.get(key)] as a default of a marker. *)
Definition _get_init_schema (config_entry : ConfigEntry) : list Marker :=
  [Required CONF_DEVICE_ID (Some (data config_entry !! CONF_DEVICE_ID))
     device_selector;
   Required "base_entity" (Some (data config_entry !! "base_entity"))
     (entity_selector ["binary_sensor"; "input_boolean"]);
   Required "mode"
     (Some (Some (dict_get (data config_entry) "mode" MODE_ROTARY_TILT)))
     (select_selector
        [("Rotary value", MODE_ROTARY_TILT);
         ("Another window sensor", MODE_BINARY_TILT)]
        "mode")].

(** The module defines no [MODE_ROTARY]: looking the name up raises. *)
Definition MODE_ROTARY : Prog FlowHandler string :=
  throw (NameError "MODE_ROTARY").

Definition async_step_second_entity (config_entry : ConfigEntry)
    (user_input : option (gmap string string)) : Prog FlowHandler FlowResult :=
  flow_LOGGER DEBUG ("Options flow step: second_entity, input: "
                     +:+ str_user_input user_input) ;;
  let errors : gmap string string := ∅ in
  match user_input with
  | Some user_input =>
    second_entity ← getitem user_input "second_entity";
    setitem__temp_data "EntityCombinerOptionsFlow" "second_entity" second_entity ;;
    temp_data ← get__temp_data "EntityCombinerOptionsFlow";
    device_name ← getitem temp_data "device_name";
    flow_LOGGER DEBUG ("Updating options for device " +:+ device_name) ;;
    temp_data ← get__temp_data "EntityCombinerOptionsFlow";
    title ← getitem temp_data "device_name";
    temp_data ← get__temp_data "EntityCombinerOptionsFlow";
    mret (create_entry title temp_data)
  | None =>
    temp_data ← get__temp_data "EntityCombinerOptionsFlow";
    mode ← getitem temp_data "mode";
    rotary ← MODE_ROTARY;
    let '(schema, description) :=
      if bool_decide (mode = rotary) then
        ([Required "second_entity"
            (Some (data config_entry !! "second_entity"))
            (entity_selector ["number"; "input_number"])],
         "Select the number or number helper for rotation.")
      else
        ([Required "second_entity"
            (Some (data config_entry !! "second_entity"))
            (entity_selector ["binary_sensor"; "input_boolean"])],
         "Select the second binary sensor or boolean helper for the window sensor.")
    in
    mret (show_form "second_entity" schema errors
            (Some {["description" := description]}))
  end.

Definition async_step_init (config_entry : ConfigEntry)
    (user_input : option (gmap string string)) : Prog FlowHandler FlowResult :=
  let errors : gmap string string := ∅ in
  match user_input with
  | Some user_input =>
    try_except_Exception
      (device_id ← getitem user_input CONF_DEVICE_ID;
       device_entry ← flow_device_registry_async_get device_id;
       match device_entry with
       | None =>
         mret (show_form "init" (_get_init_schema config_entry)
                 (<[CONF_DEVICE_ID := "device_invalid"]> errors) None)
       | Some device_entry =>
         let device_name := device_name_of device_entry in
         device_id ← getitem user_input CONF_DEVICE_ID;
         base_entity ← getitem user_input "base_entity";
         mode ← getitem user_input "mode";
         set__temp_data
           (<["mode" := mode]>
              (<["device_name" := device_name]>
                 (<["base_entity" := base_entity]>
                    (<[CONF_DEVICE_ID := device_id]> ∅)))) ;;
         flow_LOGGER DEBUG ("Options flow init completed, proceeding to second entity for device "
                            +:+ device_name) ;;
         async_step_second_entity config_entry None
       end)
      (fun e =>
         flow_LOGGER ERROR ("Error in options flow: " +:+ str_error e) ;;
         mret (show_form "init" (_get_init_schema config_entry)
                 (<["base" := "unknown"]> errors) None))
  | None =>
    mret (show_form "init" (_get_init_schema config_entry) errors
            (Some {["description" :=
                    "Select the device, binary sensor or boolean helper, and mode for the combined sensor."]}))
  end.

End Flow.
End EntityCombinerOptionsFlow.

(** ** Vocabulary for the statements about setup and flows *)

Definition is_lower_letter (c : ascii) : bool :=
  let n := nat_of_ascii c in Nat.leb 97 n && Nat.leb n 122.

(** The characters an object id built by [safe_device_name] can hold:
    lowercase letters, digits, the underscore, and white space other than
    the space itself (which [replace] turned into underscores). *)
Definition object_id_char (c : ascii) : bool :=
  is_lower_letter c || is_digit c || bool_decide (c = "_"%char)
  || (is_re_space c && negb (bool_decide (c = " "%char))).

Definition chars (s : string) : list ascii := list_ascii_of_string s.

Section SetupVocabulary.

Context {imports : Imports} {host : Host}.

(** The unique id [async_setup_entry] registers and [__init__] stores. *)
Definition unique_id_of (base_entity second_entity mode : string) : string :=
  DOMAIN +:+ "_" +:+ base_entity +:+ "_" +:+ second_entity +:+ "_" +:+ mode.

(** The entity id [async_get_or_create] answers with, and the registry it
    leaves. *)
Definition registered_entity_id (registry : gmap string string)
    (unique_id suggested_object_id : string) : string :=
  match registry !! unique_id with
  | Some registered => registered
  | None => generate_entity_id registry suggested_object_id
  end.

Definition registry_after_get_or_create (registry : gmap string string)
    (unique_id suggested_object_id : string) : gmap string string :=
  match registry !! unique_id with
  | Some _ => registry
  | None =>
    <[unique_id := generate_entity_id registry suggested_object_id]> registry
  end.

(** The data of the entry a flow result creates, if it creates one. *)
Definition entry_data_of (r : Result FlowResult) : gmap string string :=
  match r with
  | Ok (create_entry _ d) => d
  | _ => ∅
  end.

End SetupVocabulary.

(** A host for the examples: the registry makes up "sensor." followed by the
    suggested object id, and accepts a new entity id unless an entry
    already has it. *)
Definition example_host : Host := {|
  CONF_DEVICE_ID := "device_id";
  str_user_input := fun _ => "{...}";
  generate_entity_id := fun _ suggested => "sensor." +:+ suggested;
  entity_id_assignable := fun registry new =>
    forallb (fun kv => negb (String.eqb kv.2 new)) (map_to_list registry)
|}.

Definition example_device : DeviceEntry :=
  mkDevice "{('zha', '00:0d:6f:00:0a:90:69')}" None (Some "Kitchen Window #2").

Definition example_entry (extra : list (string * string)) : ConfigEntry :=
  mkEntry "01JBXYZ"
    (list_to_map (extra ++ [("device_id", "dev1");
                            ("base_entity", "binary_sensor.window");
                            ("second_entity", "sensor.handle");
                            ("device_name", "Kitchen Window #2")])).

Definition example_platform (devices : list (string * DeviceEntry))
    (registry : list (string * string)) : Platform :=
  mkPlatform (list_to_map devices) (list_to_map registry) [] [].

Definition example_flow (temp_data : option (gmap string string)) : FlowHandler :=
  mkFlow {["dev1" := example_device]} temp_data [].

(** * Properties *)

Section Properties.

Context {imports : Imports}.

Ltac run_update :=
  unfold recompute, _async_update_state, _async_update_state_try,
    _async_update_state_except, def_, try_except, float_, states_get,
    set__state, get_self, get_hass, put_self, _LOGGER, return_, raise, pass,
    mbind, mret, M_bind, M_ret;
  cbn -[String.append translation_key].

(** The four ways through [_async_update_state]. *)

Lemma update_missing ev w :
  inputA w = None ∨ inputB w = None →
  _async_update_state ev w =
    (Normal tt,
     mkWorld (hass w) (with_state (self w) None)
       (log w ++ [mkLog ERROR ("Missing state for " +:+ _base_entity (self w)
                               +:+ " or " +:+ _second_entity (self w))])).
Proof.
  unfold inputA, inputB. intros H. run_update.
  destruct H as [H|H]; rewrite H;
    [|destruct (states (hass w) !! _base_entity (self w))]; reflexivity.
Qed.

Lemma update_rotary_invalid ev w a b :
  _mode (self w) = MODE_ROTARY_TILT →
  inputA w = Some a → inputB w = Some b →
  float (state b) = None →
  _async_update_state ev w =
    (Normal tt,
     mkWorld (hass w) (with_state (self w) None)
       (log w ++ [mkLog ERROR ("Invalid rotation value for "
                               +:+ _second_entity (self w))])).
Proof.
  unfold inputA, inputB. intros Hm HA HB Hf. run_update.
  rewrite HA, HB, Hf, bool_decide_true by done. reflexivity.
Qed.

Lemma update_rotary ev w a b rotation :
  _mode (self w) = MODE_ROTARY_TILT →
  inputA w = Some a → inputB w = Some b →
  float (state b) = Some rotation →
  let v := shown (_translations (self w))
             (rotary_table (bool_decide (state a = "on")) rotation) in
  _async_update_state ev w =
    (Normal tt,
     mkWorld (hass w) (with_state (self w) v)
       (log w ++ [mkLog DEBUG ("Updated state for " +:+ entity_id (self w)
                               +:+ ": " +:+ str_state v)])).
Proof.
  unfold inputA, inputB, rotary_table. intros Hm HA HB Hf. run_update.
  rewrite HA, HB, Hf, bool_decide_true by done.
  destruct (bool_decide (state a = "on")), (float_eq0 rotation),
    (float_gt0 rotation); reflexivity.
Qed.

Lemma update_binary ev w a b :
  _mode (self w) ≠ MODE_ROTARY_TILT →
  inputA w = Some a → inputB w = Some b →
  let first_on := bool_decide (state a = "on") in
  let second_on := bool_decide (state b = "on") in
  let v := shown (_translations (self w)) (binary_table first_on second_on) in
  _async_update_state ev w =
    (Normal tt,
     mkWorld (hass w) (with_state (self w) v)
       (log w
        ++ (if first_on && negb second_on then
              [mkLog WARNING ("Invalid state combination for "
                              +:+ entity_id (self w)
                              +:+ ": first_on=" +:+ str_bool first_on
                              +:+ ", second_on=" +:+ str_bool second_on)]
            else [])
        ++ [mkLog DEBUG ("Updated state for " +:+ entity_id (self w)
                         +:+ ": " +:+ str_state v)])).
Proof.
  unfold inputA, inputB, binary_table. intros Hm HA HB. run_update.
  rewrite HA, HB, bool_decide_false by done.
  destruct (bool_decide (state a = "on")), (bool_decide (state b = "on"));
    cbn -[String.append translation_key]; rewrite <- ?app_assoc; reflexivity.
Qed.

Lemma float_gt0_not_eq0 x : float_gt0 x = true → float_eq0 x = false.
Proof. by destruct x as [[]|[]| |[] m e]. Qed.

Lemma float_lt0_not_eq0 x : float_lt0 x = true → float_eq0 x = false.
Proof. by destruct x as [[]|[]| |[] m e]. Qed.

Lemma float_lt0_not_gt0 x : float_lt0 x = true → float_gt0 x = false.
Proof. by destruct x as [[]|[]| |[] m e]. Qed.

(** ** The decision tables *)

(** C1. In binary-tilt mode with both snapshots present, the new state
    follows the truth table over [a = (A.state == "on")] and
    [b = (B.state == "on")]: neither on gives Closed, both on Open, only B
    on Tilted, and only A on Unknown, with a warning in the log. *)
Theorem binary_tilt_truth_table ev w a b :
  MODE_BINARY_TILT ≠ MODE_ROTARY_TILT →
  _mode (self w) = MODE_BINARY_TILT →
  inputA w = Some a → inputB w = Some b →
  let w' := recompute ev w in
  let tr := _translations (self w) in
  (state a ≠ "on" → state b ≠ "on" →
     state_property (self w') = shown tr Closed) ∧
  (state a = "on" → state b = "on" →
     state_property (self w') = shown tr Open) ∧
  (state a ≠ "on" → state b = "on" →
     state_property (self w') = shown tr Tilted) ∧
  (state a = "on" → state b ≠ "on" →
     state_property (self w') = shown tr Unknown ∧
     log w' = (log w ++
       [mkLog WARNING ("Invalid state combination for " +:+ entity_id (self w)
                       +:+ ": first_on=True, second_on=False");
        mkLog DEBUG ("Updated state for " +:+ entity_id (self w)
                     +:+ ": None")])%list).
Proof.
  intros Hd Hm HA HB w' tr. subst w' tr. unfold recompute.
  rewrite (update_binary ev w a b) by congruence. cbn [snd self log].
  split; [|split; [|split]]; intros Ha Hb; repeat case_bool_decide; done.
Qed.

(** C2. In rotary-tilt mode with both snapshots present, the base reading
    "on" and the second state parsed as the number [rotation]: a rotation
    equal to 0 gives Open, a positive one Tilted, a negative one Unknown. *)
Theorem rotary_tilt_base_on ev w a b rotation :
  _mode (self w) = MODE_ROTARY_TILT →
  inputA w = Some a → inputB w = Some b →
  state a = "on" →
  float (state b) = Some rotation →
  let w' := recompute ev w in
  let tr := _translations (self w) in
  (float_eq0 rotation = true → state_property (self w') = shown tr Open) ∧
  (float_gt0 rotation = true → state_property (self w') = shown tr Tilted) ∧
  (float_lt0 rotation = true → state_property (self w') = shown tr Unknown).
Proof.
  intros Hm HA HB Ha Hf w' tr. subst w' tr. unfold recompute.
  rewrite (update_rotary ev w a b rotation) by done. cbn [snd self].
  unfold rotary_table. rewrite bool_decide_true by done. cbn [negb].
  split; [|split]; intros H.
  - by rewrite H.
  - by rewrite (float_gt0_not_eq0 _ H), H.
  - by rewrite (float_lt0_not_eq0 _ H), (float_lt0_not_gt0 _ H).
Qed.

(** C3, as amended. In rotary-tilt mode with both snapshots present, the
    base not reading "on" and the second state parsed as a number, the new
    state is Closed whatever the number is. *)
Theorem rotary_tilt_base_off ev w a b rotation :
  _mode (self w) = MODE_ROTARY_TILT →
  inputA w = Some a → inputB w = Some b →
  state a ≠ "on" →
  float (state b) = Some rotation →
  state_property (self (recompute ev w)) = shown (_translations (self w)) Closed.
Proof.
  intros Hm HA HB Ha Hf. unfold recompute.
  rewrite (update_rotary ev w a b rotation) by done. cbn [snd self].
  unfold rotary_table. by rewrite bool_decide_false.
Qed.

(** C4. In rotary-tilt mode with both snapshots present and a second state
    that [float] rejects, the call ends normally, the new state is Unknown
    and one error line is logged, whatever the base reads. *)
Theorem rotary_tilt_unparsed ev w a b :
  _mode (self w) = MODE_ROTARY_TILT →
  inputA w = Some a → inputB w = Some b →
  float (state b) = None →
  (_async_update_state ev w).1 = Normal tt ∧
  state_property (self (recompute ev w)) = shown (_translations (self w)) Unknown ∧
  log (recompute ev w) = (log w ++
    [mkLog ERROR ("Invalid rotation value for "
                  +:+ _second_entity (self w))])%list.
Proof.
  intros Hm HA HB Hf. unfold recompute.
  by rewrite (update_rotary_invalid ev w a b).
Qed.

(** C5. In either mode, when the snapshot of A or of B is absent the new
    state is Unknown and the call stops there: the only trace is the error
    line about the missing state. *)
Theorem missing_input_unknown ev w :
  inputA w = None ∨ inputB w = None →
  (_async_update_state ev w).1 = Normal tt ∧
  state_property (self (recompute ev w)) = shown (_translations (self w)) Unknown ∧
  log (recompute ev w) = (log w ++
    [mkLog ERROR ("Missing state for " +:+ _base_entity (self w) +:+ " or "
                  +:+ _second_entity (self w))])%list.
Proof.
  intros H. unfold recompute. by rewrite (update_missing ev w).
Qed.

(** ** The recomputation as a whole *)

(** Every call ends normally, leaves the host as it was, and changes
    nothing of the sensor but [_state], which becomes the text of
    [derive] at the mode and the two snapshots. *)
Lemma update_eq ev w :
  _async_update_state ev w =
    (Normal tt,
     mkWorld (hass w)
       (with_state (self w)
          (shown (_translations (self w))
             (derive (_mode (self w)) (inputA w) (inputB w))))
       (log (recompute ev w))).
Proof.
  unfold recompute, derive.
  destruct (inputA w) as [a|] eqn:HA; [destruct (inputB w) as [b|] eqn:HB|].
  - case_bool_decide as Hm.
    + destruct (float (state b)) as [x|] eqn:Hf.
      * by rewrite (update_rotary ev w a b x).
      * by rewrite (update_rotary_invalid ev w a b).
    + by rewrite (update_binary ev w a b).
  - rewrite (update_missing ev w) by auto. done.
  - rewrite (update_missing ev w) by auto. done.
Qed.

Lemma update_normal ev w : (_async_update_state ev w).1 = Normal tt.
Proof. by rewrite update_eq. Qed.

Lemma recompute_hass ev w : hass (recompute ev w) = hass w.
Proof. unfold recompute. by rewrite update_eq. Qed.

Lemma recompute_self ev w :
  self (recompute ev w) =
    with_state (self w)
      (shown (_translations (self w))
         (derive (_mode (self w)) (inputA w) (inputB w))).
Proof. unfold recompute at 1. by rewrite update_eq. Qed.

(** C6. Two recomputations under the same mode and the same pair of
    snapshots produce the same derived state, whatever state either sensor
    held before: the new state is the text, under the sensor's table of
    translations, of one function of the mode and the two snapshots, so
    with equal tables the texts are equal; and recomputing again on
    unchanged inputs gives the same state again. *)
Theorem derived_state_is_pure ev1 ev2 w1 w2 :
  _mode (self w1) = _mode (self w2) →
  inputA w1 = inputA w2 →
  inputB w1 = inputB w2 →
  (∃ d : DerivedState,
     state_property (self (recompute ev1 w1)) = shown (_translations (self w1)) d ∧
     state_property (self (recompute ev2 w2)) = shown (_translations (self w2)) d) ∧
  (_translations (self w1) = _translations (self w2) →
     state_property (self (recompute ev1 w1)) =
     state_property (self (recompute ev2 w2))) ∧
  state_property (self (recompute ev2 (recompute ev1 w1))) =
    state_property (self (recompute ev1 w1)).
Proof.
  intros Hm HA HB. rewrite !recompute_self. cbn [with_state state_property _state].
  split; [|split].
  - exists (derive (_mode (self w1)) (inputA w1) (inputB w1)).
    by rewrite Hm, HA, HB.
  - intros Ht. by rewrite Hm, HA, HB, Ht.
  - unfold inputA, inputB. rewrite !recompute_hass, !recompute_self. done.
Qed.

(** C7. A recomputation never hands an exception to its caller: in every
    world the call ends normally.  A missing snapshot, a rotation that does
    not parse and the invalid binary combination each give Unknown and a
    log record (error, error, warning); and whatever exception a [try]
    block may raise, the [except Exception] clause turns it into Unknown
    and an error record. *)
Theorem recompute_never_raises ev w :
  (_async_update_state ev w).1 = Normal tt ∧
  (inputA w = None ∨ inputB w = None →
     state_property (self (recompute ev w)) = None ∧
     diagnosed ERROR w (recompute ev w)) ∧
  (∀ a b, _mode (self w) = MODE_ROTARY_TILT →
     inputA w = Some a → inputB w = Some b → float (state b) = None →
     state_property (self (recompute ev w)) = None ∧
     diagnosed ERROR w (recompute ev w)) ∧
  (∀ a b, _mode (self w) ≠ MODE_ROTARY_TILT →
     inputA w = Some a → inputB w = Some b →
     state a = "on" → state b ≠ "on" →
     state_property (self (recompute ev w)) = None ∧
     diagnosed WARNING w (recompute ev w)) ∧
  (∀ (body : M unit) e w1, body w = (Raise e, w1) →
     def_ (try_except body is_Exception _async_update_state_except) w =
       (Normal tt,
        mkWorld (hass w1) (with_state (self w1) None)
          (log w1 ++ [mkLog ERROR ("Error updating " +:+ entity_id (self w1)
                                   +:+ ": " +:+ str_exc e)]))).
Proof.
  split; [apply update_normal|]. unfold recompute, diagnosed.
  split; [|split; [|split]].
  - intros H. rewrite (update_missing ev w H). cbn. eauto.
  - intros a b Hm HA HB Hf. rewrite (update_rotary_invalid ev w a b) by done.
    cbn. eauto.
  - intros a b Hm HA HB Ha Hb. rewrite (update_binary ev w a b) by done.
    rewrite bool_decide_true, bool_decide_false by done.
    cbn -[String.append]. eauto.
  - intros body e w1 H. unfold def_, try_except. rewrite H. reflexivity.
Qed.

(** ** The change handler *)

Lemma state_changed_eq event w :
  let w1 := recompute (Some event) w in
  _async_state_changed event w =
    (Normal tt,
     mkWorld
       (mkHass (states (hass w)) (listeners (hass w)) (next_handle (hass w))
          (translations (hass w)) (written (hass w) ++ [_state (self w1)]))
       (self w1)
       (log w1 ++ [mkLog DEBUG ("State changed for " +:+ entity_id (self w)
                                +:+ ", new state: "
                                +:+ str_state (_state (self w1)))])).
Proof.
  intros w1. subst w1.
  unfold _async_state_changed, def_, async_write_ha_state, get_self, get_hass,
    put_hass, _LOGGER, mbind, mret, M_bind, M_ret.
  rewrite recompute_self. rewrite update_eq. reflexivity.
Qed.

Lemma fire_reaches_handler event w handle :
  listeners (hass w) =
    [(handle, [_base_entity (self w); _second_entity (self w)])] →
  data_entity_id event = _base_entity (self w) ∨
  data_entity_id event = _second_entity (self w) →
  async_fire event w = _async_state_changed event w.
Proof.
  intros Hl Hev.
  unfold async_fire, get_hass, mbind, M_bind. rewrite Hl.
  cbn [List.filter]. unfold tracks.
  rewrite bool_decide_true
    by (cbn [snd]; rewrite !elem_of_cons; destruct Hev; auto).
  cbn [for_]. unfold mbind, M_bind, pass, mret, M_ret.
  by rewrite state_changed_eq.
Qed.

(** C8. Whenever the handler receives a change notification it recomputes
    and then writes the state to the host, also when the recomputed state
    equals the one held before; and the host delivers to the handler every
    notification that names input A or input B of a subscribed sensor. *)
Theorem state_changed_always_writes event w :
  let w1 := recompute (Some event) w in
  let w' := (_async_state_changed event w).2 in
  (_async_state_changed event w).1 = Normal tt ∧
  self w' = self w1 ∧
  written (hass w') = (written (hass w) ++ [state_property (self w1)])%list ∧
  (state_property (self w1) = state_property (self w) →
     written (hass w') = (written (hass w) ++ [state_property (self w)])%list) ∧
  (∀ handle,
     listeners (hass w) =
       [(handle, [_base_entity (self w); _second_entity (self w)])] →
     data_entity_id event = _base_entity (self w) ∨
     data_entity_id event = _second_entity (self w) →
     async_fire event w = _async_state_changed event w).
Proof.
  intros w1 w'. subst w1 w'.
  split; [|split; [|split; [|split]]];
    [| | | |intros handle; apply fire_reaches_handler];
    rewrite state_changed_eq; unfold state_property;
    cbn [fst snd hass self written]; try done.
  by intros ->.
Qed.

(** C10. A boolean-like state counts as on exactly when it is the string
    "on": the outcome depends on such a state only through that equality,
    in both modes (every mode other than rotary-tilt takes the binary
    table), so any other text ("off", "On", "true", "unavailable",
    "unknown") is fed to the decision table as off and is not mapped to
    Unknown by itself; two snapshots reading "unavailable" give Closed in
    binary-tilt mode. *)
Theorem on_is_exact_match ev w a b :
  inputA w = Some a → inputB w = Some b →
  let w' := recompute ev w in
  let tr := _translations (self w) in
  let other := ["off"; "On"; "true"; "unavailable"; "unknown"] in
  (_mode (self w) ≠ MODE_ROTARY_TILT →
     state_property (self w') =
       shown tr (binary_table (bool_decide (state a = "on"))
                              (bool_decide (state b = "on")))) ∧
  (∀ rotation, _mode (self w) = MODE_ROTARY_TILT →
     float (state b) = Some rotation →
     state_property (self w') =
       shown tr (rotary_table (bool_decide (state a = "on")) rotation)) ∧
  (_mode (self w) ≠ MODE_ROTARY_TILT → state a ∈ other → state b ∈ other →
     state_property (self w') = shown tr Closed) ∧
  (_mode (self w) ≠ MODE_ROTARY_TILT → state a ∈ other → state b = "on" →
     state_property (self w') = shown tr Tilted) ∧
  (∀ rotation, _mode (self w) = MODE_ROTARY_TILT → state a ∈ other →
     float (state b) = Some rotation →
     state_property (self w') = shown tr Closed).
Proof.
  intros HA HB w' tr other. subst w' tr.
  assert (Hoff : ∀ s : string, s ∈ other → bool_decide (s = "on") = false).
  { intros s Hs. apply bool_decide_false. intros ->. subst other.
    rewrite !elem_of_cons, elem_of_nil in Hs.
    destruct Hs as [?|[?|[?|[?|[?|[]]]]]]; discriminate. }
  rewrite recompute_self. cbn [with_state state_property _state].
  rewrite HA, HB. unfold derive.
  split; [|split; [|split; [|split]]].
  - intros Hm. by rewrite bool_decide_false.
  - intros x Hm Hf. by rewrite bool_decide_true, Hf.
  - intros Hm Ha Hb. by rewrite bool_decide_false, !Hoff.
  - intros Hm Ha Hb. by rewrite bool_decide_false, Hoff, bool_decide_true.
  - intros x Hm Ha Hf. by rewrite bool_decide_true, Hf, Hoff.
Qed.

(** ** Subscription and removal *)

Lemma world_eta w :
  mkWorld
    (mkHass (states (hass w)) (listeners (hass w)) (next_handle (hass w))
       (translations (hass w)) (written (hass w)))
    (self w) (log w) = w.
Proof. by destruct w as [[] ? ?]. Qed.

(** Calling the kept removers one after the other leaves exactly the
    trackers none of them closes over. *)
Lemma for_remove_listener handles : ∀ w,
  for_ handles remove_listener w =
    (Normal tt,
     mkWorld
       (mkHass (states (hass w))
          (filter (λ l, l.1 ∉ handles) (listeners (hass w)))
          (next_handle (hass w)) (translations (hass w)) (written (hass w)))
       (self w) (log w)).
Proof.
  induction handles as [|h handles IH]; intros w.
  - cbn [for_]. unfold pass, mret, M_ret.
    rewrite (list_filter_iff _ (λ _, True)) by (intros; rewrite elem_of_nil; tauto).
    replace (filter (λ _, True) (listeners (hass w))) with (listeners (hass w)).
    + by rewrite world_eta.
    + induction (listeners (hass w)) as [|x l IHl]; [done|].
      by rewrite filter_cons_True, <- IHl.
  - cbn [for_]. unfold mbind, M_bind.
    change (remove_listener h w) with
      (Normal tt,
       mkWorld
         (mkHass (states (hass w))
            (filter (λ l : nat * list string, l.1 ≠ h) (listeners (hass w)))
            (next_handle (hass w)) (translations (hass w)) (written (hass w)))
         (self w) (log w)).
    cbv beta iota. rewrite IH. cbn [hass self log states listeners next_handle translations written].
    rewrite list_filter_filter. do 3 f_equal.
    apply list_filter_iff. intros l. rewrite elem_of_cons. tauto.
Qed.

Lemma will_remove_eq w :
  async_will_remove_from_hass w =
    (Normal tt,
     mkWorld
       (mkHass (states (hass w))
          (filter (λ l, l.1 ∉ _remove_listeners (self w)) (listeners (hass w)))
          (next_handle (hass w)) (translations (hass w)) (written (hass w)))
       (mkSensor (_attr_unique_id (self w)) (entity_id (self w))
          (_base_entity (self w)) (_second_entity (self w)) (_mode (self w))
          (_state (self w)) [] (_translations (self w)))
       (log w ++ [mkLog DEBUG ("Removed state change listeners for "
                               +:+ entity_id (self w))])).
Proof.
  unfold async_will_remove_from_hass, def_, mbind, M_bind, get_self.
  rewrite for_remove_listener. reflexivity.
Qed.

Lemma tracked_filter_nil w :
  tracked w →
  filter (λ l, l.1 ∉ _remove_listeners (self w)) (listeners (hass w)) = [].
Proof.
  unfold tracked. induction (listeners (hass w)) as [|x l IH]; intros H; [done|].
  rewrite filter_cons_False.
  - apply IH. intros y Hy. apply H. by right.
  - intros Hx. apply Hx, H. by left.
Qed.

Lemma added_normal_tracked w :
  tracked w →
  (async_added_to_hass w).1 = Normal tt ∧ tracked (async_added_to_hass w).2.
Proof.
  intros Ht.
  unfold async_added_to_hass, def_, async_get_translations, set__translations,
    async_track_state_change_event, set__remove_listeners,
    super_async_added_to_hass, get_self, get_hass, put_self, put_hass, _LOGGER,
    pass, mbind, mret, M_bind, M_ret.
  cbn [hass self log]. rewrite update_eq. cbn.
  split; [done|]. unfold tracked. cbn.
  intros l [Hl| ->%list_elem_of_singleton]%elem_of_app; rewrite elem_of_app.
  - left. by apply Ht.
  - right. by left.
Qed.

Lemma for_state_changed_keeps {A} (xs : list A) event : ∀ w,
  let r := for_ xs (λ _, _async_state_changed event) w in
  r.1 = Normal tt ∧
  listeners (hass r.2) = listeners (hass w) ∧
  states (hass r.2) = states (hass w) ∧
  _remove_listeners (self r.2) = _remove_listeners (self w).
Proof.
  induction xs as [|x xs IH]; intros w; cbn [for_].
  - by unfold pass, mret, M_ret.
  - unfold mbind, M_bind. rewrite state_changed_eq. cbv beta iota zeta.
    match goal with
    | |- context [for_ xs _ ?w1] => destruct (IH w1) as (H1 & H2 & H3 & H4)
    end.
    rewrite H1, H2, H3, H4. cbn. by rewrite recompute_self.
Qed.

Lemma fire_keeps event w :
  (async_fire event w).1 = Normal tt ∧
  listeners (hass (async_fire event w).2) = listeners (hass w) ∧
  states (hass (async_fire event w).2) = states (hass w) ∧
  _remove_listeners (self (async_fire event w).2) = _remove_listeners (self w).
Proof.
  unfold async_fire, get_hass, mbind, M_bind.
  apply for_state_changed_keeps.
Qed.

Lemma perform_normal_tracked a w :
  tracked w → (perform a w).1 = Normal tt ∧ tracked (perform a w).2.
Proof.
  intros Ht. destruct a as [| |id value|id|event]; cbn [perform].
  - by apply added_normal_tracked.
  - rewrite will_remove_eq. split; [done|].
    unfold tracked. cbn. rewrite tracked_filter_nil by done.
    intros l Hl. by apply elem_of_nil in Hl.
  - unfold async_set, get_hass, put_hass, mbind, M_bind. cbv beta iota.
    match goal with
    | |- context [async_fire ?e ?w1] =>
        destruct (fire_keeps e w1) as (H1 & H2 & _ & H4)
    end.
    split; [done|]. unfold tracked. by rewrite H2, H4.
  - unfold async_remove, get_hass, put_hass, mbind, M_bind. cbv beta iota.
    match goal with
    | |- context [async_fire ?e ?w1] =>
        destruct (fire_keeps e w1) as (H1 & H2 & _ & H4)
    end.
    split; [done|]. unfold tracked. by rewrite H2, H4.
  - destruct (fire_keeps event w) as (H1 & H2 & _ & H4).
    split; [done|]. unfold tracked. by rewrite H2, H4.
Qed.

Lemma run_normal_tracked history : ∀ w,
  tracked w → (run history w).1 = Normal tt ∧ tracked (run history w).2.
Proof.
  unfold run. induction history as [|a history IH]; intros w Ht; cbn [for_].
  - by unfold pass, mret, M_ret.
  - unfold mbind, M_bind.
    destruct (perform_normal_tracked a w Ht) as [H1 H2].
    destruct (perform a w) as [o w1]. cbn [fst snd] in H1, H2. subst o.
    by apply IH.
Qed.

(** With no tracker left, what other parties do to the entities reaches
    the sensor in no way. *)
Lemma external_silent a w :
  external a = true → listeners (hass w) = [] →
  (perform a w).1 = Normal tt ∧
  listeners (hass (perform a w).2) = [] ∧
  self (perform a w).2 = self w ∧
  log (perform a w).2 = log w ∧
  written (hass (perform a w).2) = written (hass w).
Proof.
  intros Ha Hl. destruct a as [| |id value|id|event]; try discriminate;
    unfold perform, async_set, async_remove, async_fire, get_hass, put_hass,
      mbind, M_bind; cbn; rewrite Hl; by cbn.
Qed.

Lemma run_external_silent late : ∀ w,
  forallb external late = true → listeners (hass w) = [] →
  (run late w).1 = Normal tt ∧
  self (run late w).2 = self w ∧
  log (run late w).2 = log w ∧
  written (hass (run late w).2) = written (hass w).
Proof.
  unfold run. induction late as [|a late IH]; intros w Hf Hl; cbn [for_].
  - by unfold pass, mret, M_ret.
  - cbn [forallb] in Hf. apply andb_prop in Hf as [Ha Hf].
    destruct (external_silent a w Ha Hl) as (H1 & H2 & H3 & H4 & H5).
    unfold mbind, M_bind.
    destruct (perform a w) as [o w1]. cbn [fst snd] in H1, H2, H3, H4, H5.
    subst o. destruct (IH w1 Hf H2) as (I1 & I2 & I3 & I4).
    by rewrite I1, I2, I3, I4.
Qed.

(** C9. Removing the sensor succeeds after any history since its
    construction, also one in which it never recomputed; when the removal
    returns the host holds no tracker of the sensor and the sensor no
    remover, so whatever changes and notifications arrive afterwards, the
    sensor, its log and the states it has written stay as they were. *)
Theorem stop_unsubscribes device_identifiers base_entity second_entity
    entity_id' mode history late w0 :
  listeners (hass w0) = [] →
  forallb external late = true →
  let constructed :=
    (__init__ device_identifiers base_entity second_entity entity_id' mode
       w0).2 in
  let w := (run history constructed).2 in
  let stopped := (async_will_remove_from_hass w).2 in
  let after := (run late stopped).2 in
  ((async_will_remove_from_hass constructed).1 = Normal tt ∧
   state_property (self (async_will_remove_from_hass constructed).2) = None) ∧
  (async_will_remove_from_hass w).1 = Normal tt ∧
  listeners (hass stopped) = [] ∧
  _remove_listeners (self stopped) = [] ∧
  (run late stopped).1 = Normal tt ∧
  self after = self stopped ∧
  log after = log stopped ∧
  written (hass after) = written (hass stopped).
Proof.
  intros Hl Hlate constructed w stopped after.
  assert (Hc : tracked constructed).
  { intros l Hin.
    change (listeners (hass constructed)) with (listeners (hass w0)) in Hin.
    rewrite Hl in Hin. by apply elem_of_nil in Hin. }
  destruct (run_normal_tracked history constructed Hc) as [_ Ht]. fold w in Ht.
  assert (Hs : listeners (hass stopped) = []).
  { subst stopped. rewrite will_remove_eq. cbn. by apply tracked_filter_nil. }
  split; [by rewrite will_remove_eq|].
  split; [by rewrite will_remove_eq|].
  split; [done|].
  split; [subst stopped; by rewrite will_remove_eq|].
  by apply run_external_silent.
Qed.

End Properties.

(** * The theorems at concrete inputs

    With the constants of [example_imports] and [py_float] for the
    builtin. *)

Lemma binary_tilt_truth_table_witness :
  derived "binary_tilt" None "off" "off" = Some "Closed" ∧
  derived "binary_tilt" None "on" "on" = Some "Open" ∧
  derived "binary_tilt" None "off" "on" = Some "Tilted" ∧
  derived "binary_tilt" None "on" "off" = None.
Proof.
  split; [|split; [|split]].
  - apply (binary_tilt_truth_table (imports := example_imports) None
             (example_world "binary_tilt" None (window_and_handle "off" "off"))
             (mkState "off") (mkState "off")); done.
  - apply (binary_tilt_truth_table (imports := example_imports) None
             (example_world "binary_tilt" None (window_and_handle "on" "on"))
             (mkState "on") (mkState "on")); done.
  - apply (binary_tilt_truth_table (imports := example_imports) None
             (example_world "binary_tilt" None (window_and_handle "off" "on"))
             (mkState "off") (mkState "on")); done.
  - apply (binary_tilt_truth_table (imports := example_imports) None
             (example_world "binary_tilt" None (window_and_handle "on" "off"))
             (mkState "on") (mkState "off")); done.
Defined.

Lemma rotary_tilt_base_on_witness :
  derived "rotary_tilt" None "on" "0" = Some "Open" ∧
  derived "rotary_tilt" None "on" "5.5" = Some "Tilted" ∧
  derived "rotary_tilt" None "on" "-1" = None.
Proof.
  split; [|split].
  - apply (rotary_tilt_base_on (imports := example_imports) None
             (example_world "rotary_tilt" None (window_and_handle "on" "0"))
             (mkState "on") (mkState "0") (S754_zero false)); done.
  - apply (rotary_tilt_base_on (imports := example_imports) None
             (example_world "rotary_tilt" None (window_and_handle "on" "5.5"))
             (mkState "on") (mkState "5.5")
             (S754_finite false 6192449487634432 (-50))); done.
  - apply (rotary_tilt_base_on (imports := example_imports) None
             (example_world "rotary_tilt" None (window_and_handle "on" "-1"))
             (mkState "on") (mkState "-1")
             (S754_finite true 4503599627370496 (-52))); done.
Defined.

(** Against C3 as first stated: with the base reading "off" and a second
    state that is no number, the rotary-tilt sensor ends Unknown, not
    Closed. *)
Lemma rotary_base_off_unparsed_counterexample :
  let w := example_world "rotary_tilt" None
             (window_and_handle "off" "not_a_number") in
  _mode (self w) = @MODE_ROTARY_TILT example_imports ∧
  inputA w = Some (mkState "off") ∧
  inputB w = Some (mkState "not_a_number") ∧
  state (mkState "off") ≠ "on" ∧
  state_property (self (recompute (imports := example_imports) None w)) = None ∧
  state_property (self (recompute (imports := example_imports) None w))
    ≠ shown (imports := example_imports) (_translations (self w)) Closed.
Proof. by vm_compute. Qed.

Lemma rotary_tilt_base_off_witness :
  derived "rotary_tilt" None "off" "12" = Some "Closed" ∧
  derived "rotary_tilt" (Some "Open") "unavailable" "-3e2" = Some "Closed".
Proof.
  split.
  - apply (rotary_tilt_base_off (imports := example_imports) None
             (example_world "rotary_tilt" None (window_and_handle "off" "12"))
             (mkState "off") (mkState "12")
             (S754_finite false 6755399441055744 (-49))); done.
  - apply (rotary_tilt_base_off (imports := example_imports) None
             (example_world "rotary_tilt" (Some "Open")
                (window_and_handle "unavailable" "-3e2"))
             (mkState "unavailable") (mkState "-3e2")
             (S754_finite true 5277655813324800 (-44))); done.
Defined.

Lemma rotary_tilt_unparsed_witness :
  derived "rotary_tilt" (Some "Open") "on" "not_a_number" = None ∧
  derived "rotary_tilt" (Some "Open") "off" "not_a_number" = None.
Proof.
  split.
  - apply (rotary_tilt_unparsed (imports := example_imports) None
             (example_world "rotary_tilt" (Some "Open")
                (window_and_handle "on" "not_a_number"))
             (mkState "on") (mkState "not_a_number")); done.
  - apply (rotary_tilt_unparsed (imports := example_imports) None
             (example_world "rotary_tilt" (Some "Open")
                (window_and_handle "off" "not_a_number"))
             (mkState "off") (mkState "not_a_number")); done.
Defined.

Lemma missing_input_unknown_witness :
  state_property
    (self (recompute (imports := example_imports) None
             (example_world "rotary_tilt" (Some "Open")
                [("binary_sensor.window", "on")]))) = None ∧
  state_property
    (self (recompute (imports := example_imports) None
             (example_world "binary_tilt" (Some "Open")
                [("sensor.handle", "on")]))) = None.
Proof.
  split.
  - apply (missing_input_unknown (imports := example_imports) None
             (example_world "rotary_tilt" (Some "Open")
                [("binary_sensor.window", "on")])).
    by right.
  - apply (missing_input_unknown (imports := example_imports) None
             (example_world "binary_tilt" (Some "Open")
                [("sensor.handle", "on")])).
    by left.
Defined.

Lemma derived_state_is_pure_witness :
  derived "rotary_tilt" (Some "Closed") "on" "5.5"
    = derived "rotary_tilt" None "on" "5.5".
Proof.
  apply (derived_state_is_pure (imports := example_imports) None None
           (example_world "rotary_tilt" (Some "Closed")
              (window_and_handle "on" "5.5"))
           (example_world "rotary_tilt" None (window_and_handle "on" "5.5")));
    done.
Defined.

Lemma on_is_exact_match_witness :
  derived "binary_tilt" None "unavailable" "unavailable" = Some "Closed" ∧
  derived "binary_tilt" None "On" "on" = Some "Tilted".
Proof.
  split.
  - apply (on_is_exact_match (imports := example_imports) None
             (example_world "binary_tilt" None
                (window_and_handle "unavailable" "unavailable"))
             (mkState "unavailable") (mkState "unavailable")); try done;
      cbn; rewrite !elem_of_cons; auto 10.
  - apply (on_is_exact_match (imports := example_imports) None
             (example_world "binary_tilt" None (window_and_handle "On" "on"))
             (mkState "On") (mkState "on")); try done;
      cbn; rewrite !elem_of_cons; auto 10.
Defined.

Lemma stop_unsubscribes_witness :
  let constructed :=
    (__init__ (imports := example_imports) "{('zha', '00:0d:6f:00:0a:90:69')}"
       "binary_sensor.window" "sensor.handle" "sensor.kitchen_extended_window"
       "rotary_tilt" (example_world "" None (window_and_handle "on" "0"))).2 in
  let w :=
    (run (imports := example_imports) [Start; Change "sensor.handle" "12"]
       constructed).2 in
  let stopped := (async_will_remove_from_hass w).2 in
  let after :=
    (run (imports := example_imports)
       [Change "binary_sensor.window" "off"; Notify (mkEvent "sensor.handle")]
       stopped).2 in
  listeners (hass stopped) = [] ∧
  _remove_listeners (self stopped) = [] ∧
  self after = self stopped ∧
  log after = log stopped ∧
  written (hass after) = written (hass stopped).
Proof.
  intros constructed w stopped after.
  pose proof (stop_unsubscribes (imports := example_imports)
                "{('zha', '00:0d:6f:00:0a:90:69')}" "binary_sensor.window"
                "sensor.handle" "sensor.kitchen_extended_window" "rotary_tilt"
                [Start; Change "sensor.handle" "12"]
                [Change "binary_sensor.window" "off";
                 Notify (mkEvent "sensor.handle")]
                (example_world "" None (window_and_handle "on" "0"))
                eq_refl eq_refl) as (_ & _ & Hl & Hr & _ & Hs & Hg & Hw).
  split; [exact Hl|]. split; [exact Hr|]. split; [exact Hs|].
  split; [exact Hg|exact Hw].
Defined.

(** The scenario of the specification: a rotary-tilt sensor over a window
    reading "on" and a handle reading "0" is Open once started, Tilted
    after the handle becomes "12", Closed after the window becomes "off";
    had it been removed before that last change, it would still read
    Tilted. *)
Example end_to_end :
  state_property (self (scenario "rotary_tilt" "on" "0" [Start])) = Some "Open" ∧
  state_property
    (self (scenario "rotary_tilt" "on" "0"
             [Start; Change "sensor.handle" "12"])) = Some "Tilted" ∧
  state_property
    (self (scenario "rotary_tilt" "on" "0"
             [Start; Change "sensor.handle" "12";
              Change "binary_sensor.window" "off"])) = Some "Closed" ∧
  state_property
    (self (scenario "rotary_tilt" "on" "0"
             [Start; Change "sensor.handle" "12"; Stop;
              Change "binary_sensor.window" "off"])) = Some "Tilted".
Proof. vm_compute. done. Qed.

(** * Beyond the decision tables: activation, dispatch and frames *)

Section Lifecycle.

Context {imports : Imports}.

(** X1. Adding the sensor to the host loads the host's translations,
    registers one tracker for exactly the two inputs under a fresh handle
    and keeps its remover, and recomputes once with the table just loaded;
    it writes no state to the host and changes no entity. *)
Theorem added_to_hass_effects w :
  let w' := (async_added_to_hass w).2 in
  (async_added_to_hass w).1 = Normal tt ∧
  _translations (self w') = translations (hass w) ∧
  listeners (hass w') =
    (listeners (hass w)
     ++ [(next_handle (hass w),
          [_base_entity (self w); _second_entity (self w)])])%list ∧
  _remove_listeners (self w') =
    (_remove_listeners (self w) ++ [next_handle (hass w)])%list ∧
  state_property (self w') =
    shown (translations (hass w))
      (derive (_mode (self w)) (inputA w) (inputB w)) ∧
  written (hass w') = written (hass w) ∧
  states (hass w') = states (hass w).
Proof.
  unfold async_added_to_hass, def_, async_get_translations, set__translations,
    async_track_state_change_event, set__remove_listeners,
    super_async_added_to_hass, get_self, get_hass, put_self, put_hass, _LOGGER,
    pass, mbind, mret, M_bind, M_ret.
  cbn [hass self log]. rewrite update_eq. cbn. done.
Qed.

(** The handler run [n] times in a row on unchanged inputs writes the same
    derived state [n] times. *)
Lemma for_state_changed_writes {A} (xs : list A) event : ∀ w,
  let r := for_ xs (λ _, _async_state_changed event) w in
  let v := shown (_translations (self w))
             (derive (_mode (self w)) (inputA w) (inputB w)) in
  written (hass r.2) = (written (hass w) ++ replicate (length xs) v)%list ∧
  self r.2 = (if xs is [] then self w else with_state (self w) v).
Proof.
  induction xs as [|x xs IH]; intros w; cbn [for_].
  - unfold pass, mret, M_ret. cbn. by rewrite app_nil_r.
  - unfold mbind, M_bind. rewrite state_changed_eq. cbv beta iota zeta.
    match goal with
    | |- context [for_ xs _ ?w1] => destruct (IH w1) as [H1 H2]
    end.
    rewrite H1, H2. rewrite recompute_self.
    unfold inputA, inputB. cbn.
    split; [by rewrite <- app_assoc|by destruct xs].
Qed.

(** X2. A state-change event makes the sensor write once for every tracker
    registered for the entity the event names, each time the same derived
    state: a sensor added twice publishes twice. *)
Theorem fire_writes_once_per_tracker event w :
  let n := length (List.filter (tracks (data_entity_id event))
                     (listeners (hass w))) in
  let v := shown (_translations (self w))
             (derive (_mode (self w)) (inputA w) (inputB w)) in
  (async_fire event w).1 = Normal tt ∧
  written (hass (async_fire event w).2) =
    (written (hass w) ++ replicate n v)%list ∧
  (0 < n → state_property (self (async_fire event w).2) = v).
Proof.
  intros n v. subst n v. split; [apply fire_keeps|].
  unfold async_fire, get_hass, mbind, M_bind.
  destruct (for_state_changed_writes
              (List.filter (tracks (data_entity_id event)) (listeners (hass w)))
              event w) as [H1 H2].
  split; [exact H1|]. intros Hn. rewrite H2.
  destruct (List.filter _ _); [by apply Nat.lt_irrefl in Hn|done].
Qed.

(** X3. Once added on a host that held no tracker of it, the sensor is
    untouched by events naming any entity other than its two inputs: no
    recomputation, no write, no log record. *)
Theorem other_entities_are_ignored w id :
  listeners (hass w) = [] →
  id ≠ _base_entity (self w) → id ≠ _second_entity (self w) →
  let w' := (async_added_to_hass w).2 in
  async_fire (mkEvent id) w' = (Normal tt, w').
Proof.
  intros Hl Hb Hs w'.
  destruct (added_to_hass_effects w) as (_ & _ & Hl' & _). fold w' in Hl'.
  unfold async_fire, get_hass, mbind, M_bind. rewrite Hl', Hl.
  cbn [app List.filter]. unfold tracks. cbn [data_entity_id snd].
  rewrite bool_decide_false; [done|].
  rewrite !elem_of_cons, elem_of_nil. tauto.
Qed.

(** X4. In rotary-tilt mode with the base on, a parsed rotation that is
    neither zero nor positive (a negative number, or NaN) gives Unknown
    silently: the only log record is the DEBUG line, no error and no
    warning. *)
Theorem negative_rotation_is_silent ev w a b rotation :
  _mode (self w) = MODE_ROTARY_TILT →
  inputA w = Some a → inputB w = Some b →
  state a = "on" →
  float (state b) = Some rotation →
  float_eq0 rotation = false → float_gt0 rotation = false →
  state_property (self (recompute ev w)) = None ∧
  log (recompute ev w) =
    (log w ++ [mkLog DEBUG ("Updated state for " +:+ entity_id (self w)
                            +:+ ": None")])%list.
Proof.
  intros Hm HA HB Ha Hf H0 H1. unfold recompute.
  rewrite (update_rotary ev w a b rotation) by done.
  unfold rotary_table. rewrite bool_decide_true, H0, H1 by done. done.
Qed.

(** X5. A recomputation touches nothing but [_state] and the log: the host
    is left as it was (no write, no tracker added or removed), every other
    attribute of the sensor keeps its value, and the log only grows, by one
    or two records. *)
Theorem recompute_frame ev w :
  let w' := recompute ev w in
  hass w' = hass w ∧
  self w' = with_state (self w) (state_property (self w')) ∧
  ∃ new, log w' = (log w ++ new)%list ∧ (1 ≤ length new ≤ 2)%nat.
Proof.
  intros w'. subst w'. split; [apply recompute_hass|].
  split; [by rewrite !recompute_self|].
  unfold recompute.
  destruct (inputA w) as [a|] eqn:HA; [destruct (inputB w) as [b|] eqn:HB|].
  - destruct (decide (_mode (self w) = MODE_ROTARY_TILT)) as [Hm|Hm].
    + destruct (float (state b)) as [x|] eqn:Hf.
      * rewrite (update_rotary ev w a b x) by done. eexists. split; [done|].
        cbn. lia.
      * rewrite (update_rotary_invalid ev w a b) by done.
        eexists. split; [done|]. cbn. lia.
    + rewrite (update_binary ev w a b) by done. eexists. split; [done|].
      destruct (bool_decide (state a = "on")),
        (bool_decide (state b = "on")); cbn; lia.
  - rewrite (update_missing ev w) by auto. eexists. split; [done|]. cbn. lia.
  - rewrite (update_missing ev w) by auto. eexists. split; [done|]. cbn. lia.
Qed.

End Lifecycle.

(** * The platform setup *)

Section SetupProperties.

Context {imports : Imports} {host : Host}.

Lemma chars_append s1 s2 : chars (s1 +:+ s2) = (chars s1 ++ chars s2)%list.
Proof.
  unfold chars. induction s1 as [|c s1 IH]; [done|].
  change (c :: list_ascii_of_string (s1 +:+ s2)
          = c :: (list_ascii_of_string s1 ++ list_ascii_of_string s2)%list).
  by rewrite IH.
Qed.

Lemma safe_char_ok (c : ascii) :
  is_alnum (lower c) || is_re_space (lower c) = true →
  object_id_char
    (if bool_decide (lower c = " "%char) then "_"%char else lower c) = true.
Proof. destruct c as [[] [] [] [] [] [] [] []]; vm_compute; done. Qed.

Lemma safe_device_name_chars device_name :
  Forall (λ c, object_id_char c = true) (chars (safe_device_name device_name)).
Proof.
  unfold safe_device_name, replace_space, re_sub_other, str_lower, chars.
  induction device_name as [|c s IH]; cbn [str_map str_filter]; [constructor|].
  destruct (is_alnum (lower c) || is_re_space (lower c)) eqn:Hk; [|done].
  cbn [str_map list_ascii_of_string]. constructor; [|done].
  by apply safe_char_ok.
Qed.

(** X6. Whatever the device name (of ASCII text), the object id built from
    it holds only lowercase letters, digits, underscores and white space
    other than the space: no capital, no space, no dot and no other
    punctuation survives. *)
Theorem safe_device_name_alphabet device_name :
  is_ascii_text device_name →
  Forall (λ c, object_id_char c = true) (chars (safe_device_name device_name)) ∧
  ("."%char ∉ chars (safe_device_name device_name)) ∧
  (" "%char ∉ chars (safe_device_name device_name)) ∧
  Forall (λ c, ¬ (65 ≤ nat_of_ascii c ≤ 90)%nat)
    (chars (safe_device_name device_name)).
Proof.
  intros _. pose proof (safe_device_name_chars device_name) as H.
  split; [done|]. rewrite Forall_forall in H.
  split; [|split].
  - intros Hin. by apply H in Hin.
  - intros Hin. by apply H in Hin.
  - apply Forall_forall. intros c Hin Hc. apply H in Hin.
    destruct c as [[] [] [] [] [] [] [] []]; vm_compute in Hin, Hc;
      try discriminate; lia.
Qed.

Lemma split_no_sep sep s : sep ∉ chars s → split sep s = [s].
Proof.
  induction s as [|c s IH]; cbn; [done|]. intros Hn.
  rewrite bool_decide_false.
  - rewrite IH; [done|]. intros Hin. apply Hn. by right.
  - intros ->. apply Hn. by left.
Qed.

Lemma split_prefix sep pre rest :
  sep ∉ chars pre → split sep (pre +:+ String sep rest) = pre :: split sep rest.
Proof.
  induction pre as [|c pre IH]; intros Hn.
  - change (split sep (String sep rest) = EmptyString :: split sep rest).
    cbn [split]. by rewrite bool_decide_true.
  - change (split sep (String c (pre +:+ String sep rest))
            = String c pre :: split sep rest).
    cbn [split]. rewrite bool_decide_false.
    + rewrite IH; [done|]. intros Hin. apply Hn. by right.
    + intros ->. apply Hn. by left.
Qed.

(** X7. The object id suggested to the entity registry,
    [entity_id.split(".")[1]], is always there and is the whole entity id
    after "sensor.": the sanitised name holds no dot that could cut it
    short. *)
Theorem suggested_object_id_is_whole device_name (p : Platform) :
  is_ascii_text device_name →
  split "." (sensor_entity_id device_name) =
    ["sensor"; safe_device_name device_name +:+ "_extended_window"] ∧
  getindex (split "." (sensor_entity_id device_name)) 1 p =
    (Ok (safe_device_name device_name +:+ "_extended_window"), p).
Proof.
  intros Ha.
  assert (Hs : split "." (sensor_entity_id device_name) =
               ["sensor"; safe_device_name device_name +:+ "_extended_window"]).
  { unfold sensor_entity_id.
    change ("sensor." +:+ safe_device_name device_name +:+ "_extended_window")
      with ("sensor" +:+ String "."
              (safe_device_name device_name +:+ "_extended_window")).
    rewrite split_prefix.
    2:{ intros Hin%list_elem_of_In. unfold chars in Hin. cbn in Hin.
        repeat (destruct Hin as [Hin|Hin]; [discriminate|]). done. }
    rewrite split_no_sep; [done|].
    rewrite chars_append, elem_of_app. intros [Hin|Hin].
    - by apply (safe_device_name_alphabet device_name Ha) in Hin.
    - apply list_elem_of_In in Hin. unfold chars in Hin. cbn in Hin.
      repeat (destruct Hin as [Hin|Hin]; [discriminate|]). done. }
  split; [done|]. unfold getindex. by rewrite Hs.
Qed.

Ltac run_setup :=
  unfold async_setup_entry, getitem, device_registry_async_get, platform_LOGGER,
    new_ExtendedWindowStatus, entity_registry_async_get_or_create,
    entity_registry_async_update_entity, async_add_entities, throw,
    mbind, mret, Prog_bind, Prog_ret.

(** X8. When the device of the entry is not in the device registry, the
    setup ends normally after an error record: no sensor is constructed or
    added and the entity registry is not touched. *)
Theorem setup_missing_device entry p device_id base_entity second_entity
    device_name :
  data entry !! CONF_DEVICE_ID = Some device_id →
  data entry !! "base_entity" = Some base_entity →
  data entry !! "second_entity" = Some second_entity →
  data entry !! "device_name" = Some device_name →
  device_registry p !! device_id = None →
  async_setup_entry entry p =
    (Ok tt,
     mkPlatform (device_registry p) (entity_registry p) (added_entities p)
       (platform_log p
        ++ [mkLog DEBUG ("Setting up extended window sensor for config entry: "
                         +:+ entry_id entry);
            mkLog ERROR ("Device with ID " +:+ device_id
                         +:+ " not found in device registry")])).
Proof.
  intros H1 H2 H3 H4 Hd. run_setup. cbn.
  rewrite H1, H2, H3, H4. cbn. rewrite Hd. cbn.
  by rewrite <- app_assoc.
Qed.

(** X9. When the entry lacks one of the four keys the setup reads with
    [entry.data[...]], the setup raises [KeyError] for a missing key before
    it touches a registry or constructs anything. *)
Theorem setup_missing_key entry p :
  (∃ key, key ∈ [CONF_DEVICE_ID; "base_entity"; "second_entity"; "device_name"]
          ∧ data entry !! key = None) →
  ∃ key, (async_setup_entry entry p).1 = Err (KeyError key) ∧
         data entry !! key = None ∧
         device_registry (async_setup_entry entry p).2 = device_registry p ∧
         entity_registry (async_setup_entry entry p).2 = entity_registry p ∧
         added_entities (async_setup_entry entry p).2 = added_entities p.
Proof.
  intros (key & Hin & Hk). run_setup. cbn.
  destruct (data entry !! CONF_DEVICE_ID) as [d|] eqn:H1; cbn;
    [|by exists CONF_DEVICE_ID].
  destruct (data entry !! "base_entity") as [b|] eqn:H2; cbn;
    [|by exists "base_entity"].
  destruct (data entry !! "second_entity") as [s|] eqn:H3; cbn;
    [|by exists "second_entity"].
  destruct (data entry !! "device_name") as [n|] eqn:H4; cbn;
    [|by exists "device_name"].
  rewrite !elem_of_cons, elem_of_nil in Hin.
  destruct Hin as [->|[->|[->|[->|[]]]]]; congruence.
Qed.

Ltac setup_step :=
  cbv beta iota zeta;
  cbn [fst snd data platform_log device_registry entity_registry
       added_entities].

(** X10. With the four keys present and the device registered, and when
    the entity id the registry answers with is already the wanted one or
    the registry accepts the renaming, the setup ends normally and hands
    exactly one new sensor to the host: it watches the two entities of the
    entry, runs in the entry's mode (rotary-tilt when the entry has none),
    starts Unknown with no tracker, and the registry lists its unique id
    under the wanted entity id. *)
Theorem setup_adds_one_sensor entry p device_id base_entity second_entity
    device_name device_entry :
  data entry !! CONF_DEVICE_ID = Some device_id →
  data entry !! "base_entity" = Some base_entity →
  data entry !! "second_entity" = Some second_entity →
  data entry !! "device_name" = Some device_name →
  device_registry p !! device_id = Some device_entry →
  is_ascii_text device_name →
  let mode := dict_get (data entry) "mode" MODE_ROTARY_TILT in
  let unique_id := unique_id_of base_entity second_entity mode in
  let wanted := sensor_entity_id device_name in
  let suggested := safe_device_name device_name +:+ "_extended_window" in
  registered_entity_id (entity_registry p) unique_id suggested = wanted ∨
  entity_id_assignable
    (registry_after_get_or_create (entity_registry p) unique_id suggested)
    wanted = true →
  let p' := (async_setup_entry entry p).2 in
  (async_setup_entry entry p).1 = Ok tt ∧
  added_entities p' =
    (added_entities p
     ++ [mkSensor unique_id wanted base_entity second_entity mode None [] ∅])%list ∧
  entity_registry p' !! unique_id = Some wanted ∧
  device_registry p' = device_registry p.
Proof.
  intros H1 H2 H3 H4 Hd Ha mode unique_id wanted suggested Hr p'.
  subst p' suggested wanted unique_id mode. unfold unique_id_of in *.
  destruct (suggested_object_id_is_whole device_name p Ha) as [Hsplit _].
  unfold async_setup_entry, getitem, device_registry_async_get,
    mbind, mret, Prog_bind, Prog_ret, platform_LOGGER.
  setup_step. rewrite H1, H2, H3, H4. setup_step. rewrite Hd. setup_step.
  unfold new_ExtendedWindowStatus, getindex.
  setup_step. rewrite Hsplit. cbn [lookup list_lookup].
  unfold mret, Prog_ret. setup_step.
  unfold entity_registry_async_get_or_create,
    entity_registry_async_update_entity, async_add_entities, platform_LOGGER.
  setup_step.
  unfold registered_entity_id, registry_after_get_or_create in Hr.
  destruct (entity_registry p !! _) as [registered|] eqn:Hreg;
    setup_step; case_bool_decide as Hne; setup_step.
  - destruct Hr as [Hr|Hr]; [done|]. rewrite Hr. setup_step.
    split; [done|]. split; [done|]. split; [|done].
    rewrite lookup_fmap, Hreg. cbn. by rewrite bool_decide_true.
  - subst registered. done.
  - destruct Hr as [Hr|Hr]; [done|]. rewrite Hr. setup_step.
    split; [done|]. split; [done|]. split; [|done].
    rewrite lookup_fmap, lookup_insert_eq. cbn. by rewrite bool_decide_true.
  - rewrite <- Hne.
    split; [done|]. split; [done|]. split; [|done].
    by rewrite lookup_insert_eq.
Qed.

(** X11. When the registry answers with another entity id and refuses the
    renaming, the [ValueError] of [async_update_entity] leaves the setup
    uncaught: no sensor is added, while the entry [async_get_or_create]
    made stays in the registry. *)
Theorem setup_rename_refused entry p device_id base_entity second_entity
    device_name device_entry :
  data entry !! CONF_DEVICE_ID = Some device_id →
  data entry !! "base_entity" = Some base_entity →
  data entry !! "second_entity" = Some second_entity →
  data entry !! "device_name" = Some device_name →
  device_registry p !! device_id = Some device_entry →
  is_ascii_text device_name →
  let mode := dict_get (data entry) "mode" MODE_ROTARY_TILT in
  let unique_id := unique_id_of base_entity second_entity mode in
  let wanted := sensor_entity_id device_name in
  let suggested := safe_device_name device_name +:+ "_extended_window" in
  registered_entity_id (entity_registry p) unique_id suggested ≠ wanted →
  entity_id_assignable
    (registry_after_get_or_create (entity_registry p) unique_id suggested)
    wanted = false →
  let p' := (async_setup_entry entry p).2 in
  (∃ msg, (async_setup_entry entry p).1 = Err (Uncaught (ValueError msg))) ∧
  added_entities p' = added_entities p ∧
  entity_registry p' =
    registry_after_get_or_create (entity_registry p) unique_id suggested.
Proof.
  intros H1 H2 H3 H4 Hd Ha mode unique_id wanted suggested Hne Hr p'.
  subst p' suggested wanted unique_id mode. unfold unique_id_of in *.
  destruct (suggested_object_id_is_whole device_name p Ha) as [Hsplit _].
  unfold async_setup_entry, getitem, device_registry_async_get,
    mbind, mret, Prog_bind, Prog_ret, platform_LOGGER.
  setup_step. rewrite H1, H2, H3, H4. setup_step. rewrite Hd. setup_step.
  unfold new_ExtendedWindowStatus, getindex.
  setup_step. rewrite Hsplit. cbn [lookup list_lookup].
  unfold mret, Prog_ret. setup_step.
  unfold entity_registry_async_get_or_create,
    entity_registry_async_update_entity, async_add_entities, platform_LOGGER.
  setup_step.
  unfold registered_entity_id, registry_after_get_or_create in Hne, Hr |- *.
  destruct (entity_registry p !! _) as [registered|] eqn:Hreg;
    setup_step; rewrite bool_decide_true by done; setup_step;
    rewrite Hr; setup_step; eauto.
Qed.

End SetupProperties.

(** * The configuration flows *)

Section FlowProperties.

Context {imports : Imports} {host : Host}.

Import EntityCombinerConfigFlow.

Ltac flow_unfold :=
  unfold async_step_user, async_step_mode, async_step_second_entity,
    try_except_Exception, setitem__temp_data, get__temp_data, set__temp_data,
    getitem, flow_device_registry_async_get, flow_LOGGER, throw,
    mbind, mret, Prog_bind, Prog_ret.

Ltac flow_step :=
  cbv beta iota zeta;
  cbn [fst snd flow_device_registry _temp_data flow_log].

Lemma device_name_of_nonempty d : device_name_of d ≠ "".
Proof.
  unfold device_name_of, or_.
  destruct (name_by_user d) as [[|c s]|], (name d) as [[|c' s']|]; by cbn.
Qed.

(** X12. The wizard run in order on a registered device ends in a config
    entry: the user step answers with the mode form, the mode step with
    the second-entity form, and the last step creates an entry titled with
    the device's name (never empty) whose data are the device id, the base
    entity, the device name, the mode and the second entity. *)
Theorem config_flow_completes f u m s device_id base_entity mode second_entity
    device_entry :
  u !! CONF_DEVICE_ID = Some device_id →
  u !! "base_entity" = Some base_entity →
  m !! "mode" = Some mode →
  s !! "second_entity" = Some second_entity →
  flow_device_registry f !! device_id = Some device_entry →
  let r1 := async_step_user (Some u) f in
  let r2 := async_step_mode (Some m) r1.2 in
  let r3 := async_step_second_entity (Some s) r2.2 in
  (∃ schema placeholders, r1.1 = Ok (show_form "mode" schema ∅ placeholders)) ∧
  (∃ schema placeholders,
     r2.1 = Ok (show_form "second_entity" schema ∅ placeholders)) ∧
  r3.1 = Ok (create_entry (device_name_of device_entry)
               (<["second_entity" := second_entity]>
                  (<["mode" := mode]>
                     (<["device_name" := device_name_of device_entry]>
                        (<["base_entity" := base_entity]>
                           (<[CONF_DEVICE_ID := device_id]> ∅)))))) ∧
  device_name_of device_entry ≠ "".
Proof.
  intros Hu1 Hu2 Hm Hs Hd r1 r2 r3.
  assert (H1 : ∃ l1,
    r1 = (Ok (show_form "mode"
                [Required "mode" None
                   (select_selector
                      [("Rotary value", MODE_ROTARY_TILT);
                       ("Another window sensor", MODE_BINARY_TILT)] "mode")]
                ∅
                (Some {["description" :=
                        "Select how the tilted status should be calculated."]})),
          mkFlow (flow_device_registry f)
            (Some (<["device_name" := device_name_of device_entry]>
                     (<["base_entity" := base_entity]>
                        (<[CONF_DEVICE_ID := device_id]> ∅))))
            l1)).
  { subst r1. flow_unfold. flow_step. rewrite Hu1. flow_step.
    rewrite Hd. flow_step. rewrite Hu2. flow_step. eauto. }
  destruct H1 as [l1 H1].
  assert (H2 : ∃ schema ph l2,
    r2 = (Ok (show_form "second_entity" schema ∅ ph),
          mkFlow (flow_device_registry f)
            (Some (<["mode" := mode]>
                     (<["device_name" := device_name_of device_entry]>
                        (<["base_entity" := base_entity]>
                           (<[CONF_DEVICE_ID := device_id]> ∅)))))
            l2)).
  { subst r2. rewrite H1. flow_unfold. flow_step. rewrite Hm. flow_step.
    rewrite lookup_insert_eq. flow_step.
    destruct (bool_decide (mode = MODE_ROTARY_TILT)); flow_step; eauto. }
  destruct H2 as (schema2 & ph2 & l2 & H2).
  split; [rewrite H1; eauto|]. split; [rewrite H2; eauto|].
  split; [|apply device_name_of_nonempty].
  subst r3. rewrite H2. flow_unfold. flow_step. rewrite Hs. flow_step.
  do 2 (rewrite lookup_insert_ne by done). rewrite lookup_insert_eq. flow_step.
  do 2 (rewrite lookup_insert_ne by done). rewrite lookup_insert_eq. flow_step.
  done.
Qed.

(** X13. An entry made by the wizard carries every key the platform setup
    reads, with the values the user chose: on any platform state the setup
    of such an entry raises no [KeyError], and the mode it reads is the
    mode chosen. *)
Theorem wizard_entry_has_setup_keys eid p device_id base_entity mode
    second_entity device_name :
  CONF_DEVICE_ID ∉ ["base_entity"; "device_name"; "mode"; "second_entity"] →
  let entry :=
    mkEntry eid
      (<["second_entity" := second_entity]>
         (<["mode" := mode]>
            (<["device_name" := device_name]>
               (<["base_entity" := base_entity]>
                  (<[CONF_DEVICE_ID := device_id]> ∅))))) in
  data entry !! CONF_DEVICE_ID = Some device_id ∧
  data entry !! "base_entity" = Some base_entity ∧
  data entry !! "second_entity" = Some second_entity ∧
  data entry !! "device_name" = Some device_name ∧
  dict_get (data entry) "mode" MODE_ROTARY_TILT = mode ∧
  ∀ key, (async_setup_entry entry p).1 ≠ Err (KeyError key).
Proof.
  intros Hc entry.
  assert (N : ∀ k : string,
            k ∈ ["base_entity"; "device_name"; "mode"; "second_entity"] →
            k ≠ CONF_DEVICE_ID) by (by intros k Hk ->).
  assert (L1 : data entry !! CONF_DEVICE_ID = Some device_id).
  { subst entry. cbn [data].
    rewrite !lookup_insert_ne by (apply N; rewrite !elem_of_cons; auto 10).
    by rewrite lookup_insert_eq. }
  assert (L2 : data entry !! "base_entity" = Some base_entity).
  { subst entry. cbn [data]. do 3 (rewrite lookup_insert_ne by done).
    by rewrite lookup_insert_eq. }
  assert (L3 : data entry !! "second_entity" = Some second_entity).
  { subst entry. cbn [data]. by rewrite lookup_insert_eq. }
  assert (L4 : data entry !! "device_name" = Some device_name).
  { subst entry. cbn [data]. do 2 (rewrite lookup_insert_ne by done).
    by rewrite lookup_insert_eq. }
  assert (L5 : dict_get (data entry) "mode" MODE_ROTARY_TILT = mode).
  { subst entry. unfold dict_get. cbn [data]. rewrite lookup_insert_ne by done.
    by rewrite lookup_insert_eq. }
  do 5 (split; [done|]). intros key.
  unfold async_setup_entry, getitem, device_registry_async_get,
    mbind, mret, Prog_bind, Prog_ret, platform_LOGGER.
  cbv beta iota zeta.
  cbn [fst snd platform_log device_registry entity_registry added_entities].
  rewrite L1, L2, L3, L4. cbv beta iota zeta.
  cbn [fst snd platform_log device_registry entity_registry added_entities].
  destruct (device_registry p !! device_id) as [d|]; [|done].
  unfold new_ExtendedWindowStatus, getindex, entity_registry_async_get_or_create,
    entity_registry_async_update_entity, async_add_entities, platform_LOGGER,
    throw, mret, Prog_ret.
  cbv beta iota zeta.
  cbn [fst snd platform_log device_registry entity_registry added_entities].
  destruct (split _ _ !! 1) as [o|]; [|done]. cbv beta iota zeta.
  cbn [fst snd platform_log device_registry entity_registry added_entities].
  destruct (entity_registry p !! _) as [registered|]; cbv beta iota zeta;
    cbn [fst snd platform_log device_registry entity_registry added_entities];
    case_bool_decide; cbv beta iota zeta;
    cbn [fst snd platform_log device_registry entity_registry added_entities];
    try done;
    destruct (entity_id_assignable _ _); done.
Qed.

(** X14. Submitting the user form for a device the registry does not know
    shows the form again with the error "device_invalid" under the device
    key; nothing is remembered of the submission. *)
Theorem config_flow_unknown_device f u device_id :
  u !! CONF_DEVICE_ID = Some device_id →
  flow_device_registry f !! device_id = None →
  async_step_user (Some u) f =
    (Ok (show_form "user" _get_user_schema
           (<[CONF_DEVICE_ID := "device_invalid"]> ∅) None),
     mkFlow (flow_device_registry f) (_temp_data f)
       (flow_log f ++ [mkLog DEBUG ("Config flow step: user, input: "
                                    +:+ str_user_input (Some u))])).
Proof.
  intros Hu Hd. flow_unfold. flow_step. rewrite Hu. flow_step.
  by rewrite Hd.
Qed.

(** X15. The user step never raises and never creates an entry: whatever it
    is given, it answers with the user form or the mode form.  A
    submission without the base entity, for a known device, is answered by
    the user form with the error "unknown" under "base", an error record
    naming the missing key, and nothing remembered. *)
Theorem config_flow_user_step_is_total f user_input :
  (∃ step schema errors placeholders,
     (async_step_user user_input f).1 =
       Ok (show_form step schema errors placeholders) ∧
     (step = "user" ∨ step = "mode")) ∧
  (∀ u device_id device_entry, user_input = Some u →
     u !! CONF_DEVICE_ID = Some device_id →
     flow_device_registry f !! device_id = Some device_entry →
     u !! "base_entity" = None →
     async_step_user user_input f =
       (Ok (show_form "user" _get_user_schema (<["base" := "unknown"]> ∅) None),
        mkFlow (flow_device_registry f) (_temp_data f)
          (flow_log f
           ++ [mkLog DEBUG ("Config flow step: user, input: "
                            +:+ str_user_input user_input);
               mkLog ERROR "Error in config flow user step: 'base_entity'"]))).
Proof.
  split.
  - destruct user_input as [u|]; flow_unfold; flow_step; [|eauto 10].
    destruct (u !! CONF_DEVICE_ID) as [device_id|]; flow_step; [|eauto 10].
    destruct (flow_device_registry f !! device_id) as [d|]; flow_step;
      [|eauto 10].
    destruct (u !! "base_entity") as [b|]; flow_step; eauto 10.
  - intros u device_id device_entry -> Hu Hd Hb.
    flow_unfold. flow_step. rewrite Hu. flow_step. rewrite Hd. flow_step.
    rewrite Hb. flow_step. by rewrite <- app_assoc.
Qed.

(** X16. The mode step remembers the mode and answers with the
    second-entity form whose entity selector fits it: numbers for
    rotary-tilt, binary sensors and boolean helpers for every other
    mode. *)
Theorem mode_step_offers_matching_entities f m mode temp_data :
  _temp_data f = Some temp_data →
  m !! "mode" = Some mode →
  ∃ placeholders,
    (async_step_mode (Some m) f).1 =
      Ok (show_form "second_entity"
            [Required "second_entity" None
               (entity_selector
                  (if bool_decide (mode = MODE_ROTARY_TILT)
                   then ["number"; "input_number"]
                   else ["binary_sensor"; "input_boolean"]))]
            ∅ placeholders) ∧
    _temp_data (async_step_mode (Some m) f).2 =
      Some (<["mode" := mode]> temp_data).
Proof.
  intros Ht Hm. flow_unfold. flow_step. rewrite Hm. flow_step.
  rewrite Ht. flow_step. rewrite lookup_insert_eq. flow_step.
  destruct (bool_decide (mode = MODE_ROTARY_TILT)); flow_step; eauto.
Qed.


End FlowProperties.

Section OptionsFlowProperties.

Context {imports : Imports} {host : Host}.

Import EntityCombinerOptionsFlow.

Ltac options_unfold :=
  unfold async_step_init, async_step_second_entity, MODE_ROTARY,
    try_except_Exception, setitem__temp_data, get__temp_data, set__temp_data,
    getitem, flow_device_registry_async_get, flow_LOGGER, throw,
    mbind, mret, Prog_bind, Prog_ret.

Ltac options_step :=
  cbv beta iota zeta;
  cbn [fst snd flow_device_registry _temp_data flow_log].

Lemma options_second_entity_form_raises config_entry f :
  ∃ e, (async_step_second_entity config_entry None f).1 = Err e.
Proof.
  options_unfold. options_step.
  destruct (_temp_data f) as [d|]; options_step; [|eauto].
  destruct (d !! "mode"); options_step; eauto.
Qed.

(** X18. The options flow cannot get past its first form.  Its
    second-entity step compares the mode with [MODE_ROTARY], a name the
    module never defines, so showing that form always raises; the init step
    catches this, and so every call of the init step answers with the init
    form again.  For a complete submission on a known device the error is
    "unknown" under "base" and the log names the undefined name. *)
Theorem options_flow_never_completes config_entry f user_input :
  (∃ errors placeholders,
     (async_step_init config_entry user_input f).1 =
       Ok (show_form "init" (_get_init_schema config_entry) errors
             placeholders)) ∧
  (∃ e, (async_step_second_entity config_entry None f).1 = Err e) ∧
  (∀ u device_id device_entry base_entity mode, user_input = Some u →
     u !! CONF_DEVICE_ID = Some device_id →
     u !! "base_entity" = Some base_entity →
     u !! "mode" = Some mode →
     flow_device_registry f !! device_id = Some device_entry →
     (async_step_init config_entry user_input f).1 =
       Ok (show_form "init" (_get_init_schema config_entry)
             (<["base" := "unknown"]> ∅) None) ∧
     mkLog ERROR "Error in options flow: name 'MODE_ROTARY' is not defined"
       ∈ flow_log (async_step_init config_entry user_input f).2).
Proof.
  split; [|split; [apply options_second_entity_form_raises|]].
  - destruct user_input as [u|]; options_unfold; options_step; [|eauto].
    destruct (u !! CONF_DEVICE_ID) as [device_id|]; options_step; [|eauto].
    destruct (flow_device_registry f !! device_id) as [d|]; options_step;
      [|eauto].
    destruct (u !! "base_entity") as [b|]; options_step; [|eauto].
    destruct (u !! "mode") as [m|]; options_step; [|eauto].
    rewrite lookup_insert_eq. options_step. eauto.
  - intros u device_id device_entry base_entity mode -> H1 H2 H3 Hd.
    options_unfold. options_step. rewrite H1. options_step.
    rewrite Hd. options_step. rewrite H2. options_step.
    rewrite H3. options_step. rewrite lookup_insert_eq. options_step.
    split; [done|]. apply elem_of_app. right.
    apply list_elem_of_singleton. reflexivity.
Qed.

End OptionsFlowProperties.

(** * The further theorems at concrete inputs *)

Lemma is_ascii_text_check s :
  forallb (fun c => Nat.ltb (nat_of_ascii c) 128) (chars s) = true →
  is_ascii_text s.
Proof.
  unfold is_ascii_text, chars. intros H. apply Forall_forall. intros c Hc.
  rewrite forallb_forall in H. apply Nat.ltb_lt, H. by apply list_elem_of_In.
Qed.

Lemma other_entities_are_ignored_witness :
  let w' :=
    (async_added_to_hass (imports := example_imports)
       (example_world "rotary_tilt" None (window_and_handle "on" "0"))).2 in
  async_fire (imports := example_imports) (mkEvent "light.kitchen") w'
    = (Normal tt, w').
Proof.
  exact (other_entities_are_ignored (imports := example_imports)
           (example_world "rotary_tilt" None (window_and_handle "on" "0"))
           "light.kitchen" eq_refl ltac:(done) ltac:(done)).
Defined.

Lemma negative_rotation_is_silent_witness :
  derived "rotary_tilt" (Some "Open") "on" "-1" = None ∧
  derived "rotary_tilt" (Some "Open") "on" "nan" = None.
Proof.
  split.
  - apply (negative_rotation_is_silent (imports := example_imports) None
             (example_world "rotary_tilt" (Some "Open")
                (window_and_handle "on" "-1"))
             (mkState "on") (mkState "-1")
             (S754_finite true 4503599627370496 (-52))); done.
  - apply (negative_rotation_is_silent (imports := example_imports) None
             (example_world "rotary_tilt" (Some "Open")
                (window_and_handle "on" "nan"))
             (mkState "on") (mkState "nan") S754_nan); done.
Defined.

Lemma safe_device_name_alphabet_witness :
  "."%char ∉ chars (safe_device_name "Kitchen Window #2").
Proof.
  apply (safe_device_name_alphabet "Kitchen Window #2").
  by apply is_ascii_text_check.
Defined.

Lemma suggested_object_id_is_whole_witness :
  split "." (sensor_entity_id "Kitchen Window #2") =
    ["sensor"; safe_device_name "Kitchen Window #2" +:+ "_extended_window"].
Proof.
  apply (suggested_object_id_is_whole "Kitchen Window #2"
           (example_platform [] [])).
  by apply is_ascii_text_check.
Defined.

Lemma setup_missing_device_witness :
  (async_setup_entry (imports := example_imports) (host := example_host)
     (example_entry []) (example_platform [] [])).1 = Ok tt.
Proof.
  rewrite (setup_missing_device (imports := example_imports)
             (host := example_host) (example_entry []) (example_platform [] [])
             "dev1" "binary_sensor.window" "sensor.handle" "Kitchen Window #2")
    by done.
  reflexivity.
Defined.

Lemma setup_missing_key_witness :
  ∃ key,
    (async_setup_entry (imports := example_imports) (host := example_host)
       (mkEntry "01JBXYZ" {["device_id" := "dev1"]})
       (example_platform [("dev1", example_device)] [])).1 = Err (KeyError key).
Proof.
  destruct (setup_missing_key (imports := example_imports)
              (host := example_host)
              (mkEntry "01JBXYZ" {["device_id" := "dev1"]})
              (example_platform [("dev1", example_device)] []))
    as (key & H & _).
  - exists "base_entity". split; [|done].
    rewrite !elem_of_cons. auto.
  - by exists key.
Defined.

Lemma setup_adds_one_sensor_witness :
  added_entities
    (async_setup_entry (imports := example_imports) (host := example_host)
       (example_entry [])
       (example_platform [("dev1", example_device)] [])).2 =
  [mkSensor
     (unique_id_of (imports := example_imports) "binary_sensor.window"
        "sensor.handle"
        (dict_get (data (example_entry [])) "mode"
           (@MODE_ROTARY_TILT example_imports)))
     (sensor_entity_id "Kitchen Window #2")
     "binary_sensor.window" "sensor.handle"
     (dict_get (data (example_entry [])) "mode"
        (@MODE_ROTARY_TILT example_imports))
     None [] ∅].
Proof.
  pose proof (setup_adds_one_sensor (imports := example_imports)
                (host := example_host) (example_entry [])
                (example_platform [("dev1", example_device)] [])
                "dev1" "binary_sensor.window" "sensor.handle"
                "Kitchen Window #2" example_device
                eq_refl eq_refl eq_refl eq_refl eq_refl
                (is_ascii_text_check "Kitchen Window #2" eq_refl)
                (or_introl eq_refl)) as (_ & H & _).
  exact H.
Defined.

Lemma setup_rename_refused_witness :
  added_entities
    (async_setup_entry (imports := example_imports) (host := example_host)
       (example_entry [("mode", "binary_tilt")])
       (example_platform [("dev1", example_device)]
          [("extended_window_status_binary_sensor.window_sensor.handle_binary_tilt",
            "sensor.renamed_by_user");
           ("another_unique_id",
            "sensor.kitchen_window_2_extended_window")])).2 = [].
Proof.
  pose proof (setup_rename_refused (imports := example_imports)
                (host := example_host)
                (example_entry [("mode", "binary_tilt")])
                (example_platform [("dev1", example_device)]
                   [("extended_window_status_binary_sensor.window_sensor.handle_binary_tilt",
                     "sensor.renamed_by_user");
                    ("another_unique_id",
                     "sensor.kitchen_window_2_extended_window")])
                "dev1" "binary_sensor.window" "sensor.handle"
                "Kitchen Window #2" example_device
                eq_refl eq_refl eq_refl eq_refl eq_refl
                (is_ascii_text_check "Kitchen Window #2" eq_refl)
                ltac:(by vm_compute) ltac:(by vm_compute)) as (_ & H & _).
  exact H.
Defined.

Lemma config_flow_completes_witness :
  device_name_of example_device ≠ "".
Proof.
  apply (config_flow_completes (imports := example_imports)
           (host := example_host) (example_flow None)
           {["device_id" := "dev1"; "base_entity" := "binary_sensor.window"]}
           {["mode" := "binary_tilt"]}
           {["second_entity" := "binary_sensor.window_tilt"]}
           "dev1" "binary_sensor.window" "binary_tilt"
           "binary_sensor.window_tilt" example_device); done.
Defined.

Lemma wizard_entry_has_setup_keys_witness :
  let entry :=
    mkEntry "01JBXYZ"
      (<["second_entity" := "binary_sensor.window_tilt"]>
         (<["mode" := "binary_tilt"]>
            (<["device_name" := "Kitchen Window #2"]>
               (<["base_entity" := "binary_sensor.window"]>
                  (<[@CONF_DEVICE_ID example_host := "dev1"]> ∅))))) in
  dict_get (data entry) "mode" (@MODE_ROTARY_TILT example_imports)
    = "binary_tilt" ∧
  (async_setup_entry (imports := example_imports) (host := example_host)
     entry (example_platform [] [])).1 ≠ Err (KeyError "second_entity").
Proof.
  intros entry.
  pose proof (wizard_entry_has_setup_keys (imports := example_imports)
                (host := example_host) "01JBXYZ" (example_platform [] [])
                "dev1" "binary_sensor.window" "binary_tilt"
                "binary_sensor.window_tilt" "Kitchen Window #2") as H.
  destruct H as (_ & _ & _ & _ & Hm & Hk).
  - rewrite !elem_of_cons, elem_of_nil.
    intros [H|[H|[H|[H|[]]]]]; discriminate.
  - split; [exact Hm|exact (Hk "second_entity")].
Defined.

Lemma config_flow_unknown_device_witness :
  (EntityCombinerConfigFlow.async_step_user (imports := example_imports)
     (host := example_host) (Some {["device_id" := "gone"]})
     (example_flow None)).1 =
  Ok (show_form "user"
        (EntityCombinerConfigFlow._get_user_schema (host := example_host))
        (<[@CONF_DEVICE_ID example_host := "device_invalid"]> ∅) None).
Proof.
  rewrite (config_flow_unknown_device (imports := example_imports)
             (host := example_host) (example_flow None)
             {["device_id" := "gone"]} "gone") by done.
  reflexivity.
Defined.

Lemma mode_step_offers_matching_entities_witness :
  ∃ placeholders,
    (EntityCombinerConfigFlow.async_step_mode (imports := example_imports)
       (host := example_host) (Some {["mode" := "rotary_tilt"]})
       (example_flow (Some ∅))).1 =
    Ok (show_form "second_entity"
          [Required "second_entity" None
             (entity_selector
                (if bool_decide ("rotary_tilt" = @MODE_ROTARY_TILT example_imports)
                 then ["number"; "input_number"]
                 else ["binary_sensor"; "input_boolean"]))]
          ∅ placeholders).
Proof.
  destruct (mode_step_offers_matching_entities (imports := example_imports)
              (host := example_host) (example_flow (Some ∅))
              {["mode" := "rotary_tilt"]} "rotary_tilt" ∅ eq_refl ltac:(done))
    as (placeholders & H & _).
  exists placeholders. exact H.
Defined.


(** A sensor added twice writes twice for one change of an input. *)
Example added_twice_writes_twice :
  written (hass (scenario "rotary_tilt" "on" "0"
                   [Start; Start; Change "sensor.handle" "12"]))
    = [Some "Tilted"; Some "Tilted"].
Proof. vm_compute. done. Qed.
